(** * wgkex broker: a shallow embedding of [wgkex/broker/app.py]

    The broker keeps three process-global stores (worker metrics, worker
    endpoint data, broker liveness), fills them from MQTT callbacks and
    consults them from two HTTP handlers.  This development embeds the
    handlers as state-passing functions that also record what they log
    and publish, and proves properties of them.

    Python [str] and [bytes] values are both represented by [string],
    a [str] by its UTF-8 encoding. *)

From Stdlib Require Import ZArith String Ascii List Bool Lia.
From Stdlib Require QArith_base.
From stdpp Require Import base option list gmap strings pretty.

Local Open Scope Z_scope.

(** ** The Python runtime: exceptions and results *)

Inductive exn_class :=
  | ValueError
  | TypeError
  | AttributeError
  | OverflowError
  | UnboundLocalError
  | UnicodeDecodeError
  | JSONDecodeError
  | BadRequest.

(** An exception value.  [exn_msg] is [Some m] when the source raises the
    exception itself with text [m], and [None] when the exception comes out
    of the interpreter or a library call, whose text is not modelled. *)
Record exn := Exn { exn_cls : exn_class; exn_msg : option string }.

Inductive result (A : Type) :=
  | Return (a : A)
  | Raise (e : exn).
Arguments Return {A} a.
Arguments Raise {A} e.

Definition raises {A} (r : result A) : bool :=
  match r with Return _ => false | Raise _ => true end.

(** ** Strings *)

Definition slash : ascii := "/"%char.
Definition newline : ascii := "010"%char.

Fixpoint str_chars (s : string) : list ascii :=
  match s with
  | EmptyString => []
  | String c s' => c :: str_chars s'
  end.

(** [s.split("/", maxsplit)]: cut at the first [maxsplit] separators. *)
Fixpoint split_go (sep : ascii) (maxsplit : nat) (cur : string) (s : string)
  : list string :=
  match s with
  | EmptyString => [cur]
  | String c s' =>
      match maxsplit with
      | O => [cur +:+ s]
      | S m =>
          if Ascii.eqb c sep then cur :: split_go sep m "" s'
          else split_go sep maxsplit (cur +:+ String c "") s'
      end
  end.

Definition split (sep : ascii) (maxsplit : nat) (s : string) : list string :=
  split_go sep maxsplit "" s.

(** [bytes.decode()]: the payload is returned as it is when it is
    well-formed UTF-8, and [UnicodeDecodeError] is raised otherwise. *)
Definition in_range (lo hi : N) (c : ascii) : bool :=
  let n := N_of_ascii c in (lo <=? n)%N && (n <=? hi)%N.

Fixpoint utf8_ok (need : nat) (lo hi : N) (s : list ascii) : bool :=
  match s with
  | [] => match need with O => true | S _ => false end
  | c :: s' =>
      match need with
      | S k => in_range lo hi c && utf8_ok k 128 191 s'
      | O =>
          let n := N_of_ascii c in
          if (n <? 128)%N then utf8_ok 0 128 191 s'
          else if in_range 194 223 c then utf8_ok 1 128 191 s'
          else if (n =? 224)%N then utf8_ok 2 160 191 s'
          else if in_range 225 236 c || in_range 238 239 c
               then utf8_ok 2 128 191 s'
          else if (n =? 237)%N then utf8_ok 2 128 159 s'
          else if (n =? 240)%N then utf8_ok 3 144 191 s'
          else if in_range 241 243 c then utf8_ok 3 128 191 s'
          else if (n =? 244)%N then utf8_ok 3 128 143 s'
          else false
      end
  end.

Definition decode (payload : string) : result string :=
  if utf8_ok 0 128 191 (str_chars payload) then Return payload
  else Raise (Exn UnicodeDecodeError None).

(** [int(b)] for a [bytes] or ASCII [str] argument, base 10: optional
    surrounding whitespace, an optional sign, then decimal digits in which
    single underscores may separate digits.  Anything else is a
    [ValueError], and so is a literal of more than [MAX_STR_DIGITS]
    digits. *)
Definition is_space (c : ascii) : bool :=
  let n := N_of_ascii c in ((9 <=? n)%N && (n <=? 13)%N) || (n =? 32)%N.

Definition digit_val (c : ascii) : option Z :=
  let n := N_of_ascii c in
  if (48 <=? n)%N && (n <=? 57)%N then Some (Z.of_N n - 48) else None.

Fixpoint lstrip (s : list ascii) : list ascii :=
  match s with
  | c :: s' => if is_space c then lstrip s' else s
  | [] => []
  end.

(** [digits acc n prev s]: [acc] is the value read so far, [n] the number
    of digits read, [prev] tells whether the previous character was a
    digit; the result is the value, the digit count and the unread rest. *)
Fixpoint digits (acc : Z) (n : nat) (prev : bool) (s : list ascii)
  : option (Z * nat * list ascii) :=
  match s with
  | c :: s' =>
      match digit_val c with
      | Some d => digits (10 * acc + d) (S n) true s'
      | None =>
          if Ascii.eqb c "_"%char then
            if prev then
              match s' with
              | c' :: _ =>
                  match digit_val c' with
                  | Some _ => digits acc n false s'
                  | None => None
                  end
              | [] => None
              end
            else None
          else if prev then Some (acc, n, s) else None
      end
  | [] => if prev then Some (acc, n, []) else None
  end.

Definition MAX_STR_DIGITS : nat := 4300.

Definition int_of_chars (s : list ascii) : result Z :=
  let s1 := lstrip s in
  let '(neg, s2) :=
    match s1 with
    | c :: s' =>
        if Ascii.eqb c "-"%char then (true, s')
        else if Ascii.eqb c "+"%char then (false, s')
        else (false, s1)
    | [] => (false, s1)
    end in
  match digits 0 0 false s2 with
  | Some (v, n, rest) =>
      match lstrip rest with
      | [] =>
          if (MAX_STR_DIGITS <? n)%nat then Raise (Exn ValueError None)
          else Return (if neg then - v else v)
      | _ :: _ => Raise (Exn ValueError None)
      end
  | None => Raise (Exn ValueError None)
  end.

Definition int_of_bytes (payload : string) : result Z :=
  int_of_chars (str_chars payload).

(** ** Regular expressions, as far as [WG_PUBKEY_PATTERN] needs them *)

Inductive class_item :=
  | CRange (lo hi : ascii)
  | CChar (c : ascii).

Inductive re :=
  | AtBeginning                              (* ^ *)
  | AtEnd                                    (* $ *)
  | InClass (cls : list class_item)          (* [...] *)
  | Literal (c : ascii)
  | Repeat (n : nat) (cls : list class_item) (* [...]{n} *).

Definition in_class (cls : list class_item) (c : ascii) : bool :=
  existsb (fun it =>
             match it with
             | CRange lo hi => in_range (N_of_ascii lo) (N_of_ascii hi) c
             | CChar x => Ascii.eqb c x
             end) cls.

(** Consume exactly [n] characters of the class. *)
Fixpoint take_class (cls : list class_item) (n : nat) (s : string)
  : option string :=
  match n with
  | O => Some s
  | S k =>
      match s with
      | String c s' => if in_class cls c then take_class cls k s' else None
      | EmptyString => None
      end
  end.

(** Python's [$] (without [re.MULTILINE]) holds at the end of the string
    and also just before a newline that is the last character. *)
Definition at_end (s : string) : bool :=
  match s with
  | EmptyString => true
  | String c EmptyString => Ascii.eqb c newline
  | _ => false
  end.

(** [at_start] tells whether the position is still the start of the
    subject; [s] is what remains of the subject. *)
Fixpoint match_here (p : list re) (at_start : bool) (s : string) : bool :=
  match p with
  | [] => true
  | AtBeginning :: p' => at_start && match_here p' at_start s
  | AtEnd :: p' => at_end s && match_here p' at_start s
  | InClass cls :: p' =>
      match s with
      | String c s' => in_class cls c && match_here p' false s'
      | EmptyString => false
      end
  | Literal x :: p' =>
      match s with
      | String c s' => Ascii.eqb c x && match_here p' false s'
      | EmptyString => false
      end
  | Repeat n cls :: p' =>
      match take_class cls n s with
      | Some s' => match_here p' (at_start && Nat.eqb n 0) s'
      | None => false
      end
  end.

(** [pattern.match(s) is not None] *)
Definition re_match (p : list re) (s : string) : bool := match_here p true s.

Definition base64_class : list class_item :=
  [CRange "A" "Z"; CRange "a" "z"; CRange "0" "9"; CChar "+"; CChar "/"]%char.

Definition last_class : list class_item :=
  map CChar ["A"; "E"; "I"; "M"; "Q"; "U"; "Y"; "c"; "g"; "k"; "o"; "s";
             "w"; "4"; "8"; "0"]%char.

(** [re.compile(r"^[A-Za-z0-9+/]{42}[AEIMQUYcgkosw480]=$")] *)
Definition WG_PUBKEY_PATTERN : list re :=
  [AtBeginning; Repeat 42 base64_class; InClass last_class;
   Literal "="%char; AtEnd].

(** The regular expression read as the spec reads it: the strings of
    exactly 44 characters, 42 from the base64 alphabet, one from the
    restricted set, and a final [=]. *)
Definition wg_key_shape (k : string) : bool :=
  match take_class base64_class 42 k with
  | Some (String c (String e EmptyString)) =>
      in_class last_class c && Ascii.eqb e "="%char
  | _ => false
  end.

(** ** JSON values, as [json.loads] builds them *)

Inductive float_value :=
  | FNaN
  | FInf (negative : bool)
  | FFinite (q : QArith_base.Q).

#[local] Set Warnings "-register-all".
Inductive json :=
  | JNull
  | JBool (b : bool)
  | JInt (z : Z)
  | JFloat (f : float_value)
  | JStr (s : string)
  | JList (l : list json)
  | JDict (d : list (string * json)).

(** [d.get(key)] on a decoded object; [None] is [JNull]. *)
Fixpoint dict_get (d : list (string * json)) (key : string) : json :=
  match d with
  | [] => JNull
  | (k, v) :: d' => if String.eqb k key then v else dict_get d' key
  end.

(** [msg.get(key)] on any decoded value: only a dict has [get]. *)
Definition get (msg : json) (key : string) : result json :=
  match msg with
  | JDict d => Return (dict_get d key)
  | _ => Raise (Exn AttributeError None)
  end.

Definition isinstance_dict (msg : json) : bool :=
  match msg with JDict _ => true | _ => false end.

(** ** The data model *)

Module KeyExchange.
Record t := mk { public_key : string; domain : string }.
End KeyExchange.

Module WorkerData.
Record t := mk {
  external_address : string;
  port : Z;
  link_address : string;
  public_key : string
}.
End WorkerData.

Module BrokerStatus.
Record t := mk { online : bool }.
End BrokerStatus.

(** The constants of [wgkex.common.mqtt], which is not among the
    sources, are taken from the spec.  A topic template is a function of
    the values that [str.format] substitutes. *)

(** Modelled from the spec: [CONNECTED_PEERS_METRIC] of
    [wgkex.common.mqtt], the metric name of spec section 3. *)
Definition CONNECTED_PEERS_METRIC : string := "connected_peers".

(** Modelled from the spec: [TOPIC_WORKER_STATUS] of [wgkex.common.mqtt],
    the worker-status topic of spec section 4.5. *)
Definition TOPIC_WORKER_STATUS (worker : string) : string :=
  "wireguard/worker/" +:+ worker +:+ "/status".

(** Modelled from the spec: [TOPIC_WORKER_WG_DATA] of
    [wgkex.common.mqtt], the worker-data topic of spec section 4.5. *)
Definition TOPIC_WORKER_WG_DATA (worker domain : string) : string :=
  "wireguard/worker/" +:+ worker +:+ "/" +:+ domain +:+ "/data".

(** Modelled from the spec: [TOPIC_BROKER_STATUS] of [wgkex.common.mqtt],
    the broker-status topic of spec section 4.5. *)
Definition TOPIC_BROKER_STATUS (broker : string) : string :=
  "wireguard/broker/" +:+ broker +:+ "/status".

(** [wgkex.broker.metrics] is not among the sources; its two classes are
    taken from spec sections 3 and 4.2. *)
Module WorkerMetrics.
(** Modelled from the spec: the class [WorkerMetrics] of
    [wgkex.broker.metrics].  Spec section 3: one record per worker,
    holding the online flag and the map from domain to metric name to
    integer. *)
Record t := mk {
  online : bool;
  domain_data : gmap string (gmap string Z)
}.

(** Modelled from the spec: a new [WorkerMetrics] record.  Spec section
    4.2: creating a worker does not set it online. *)
Definition new : t := mk false ∅.

(** Modelled from the spec: [WorkerMetrics.is_online], the flag. *)
Definition is_online (wm : t) : bool := online wm.

(** Modelled from the spec: [WorkerMetrics.get_domain_metrics], the
    metrics recorded for a domain, none for a domain never seen. *)
Definition get_domain_metrics (wm : t) (domain : string) : gmap string Z :=
  default ∅ (domain_data wm !! domain).

Definition set_metric (wm : t) (domain metric : string) (value : Z) : t :=
  mk (online wm)
     (<[domain := <[metric := value]> (get_domain_metrics wm domain)]>
        (domain_data wm)).

Definition set_online_flag (wm : t) (b : bool) : t :=
  mk b (domain_data wm).
End WorkerMetrics.

(** The order of Python tuples [(peers, worker)]: by peer count, then by
    worker name, strings being compared character by character. *)
Definition tuple_leb (a b : Z * string) : bool :=
  (a.1 <? b.1) || ((a.1 =? b.1) && String.leb a.2 b.2).

Fixpoint insert_sorted (x : Z * string) (l : list (Z * string))
  : list (Z * string) :=
  match l with
  | [] => [x]
  | y :: l' => if tuple_leb x y then x :: l else y :: insert_sorted x l'
  end.

Definition sorted (l : list (Z * string)) : list (Z * string) :=
  foldr insert_sorted [] l.

Module WorkerMetricsCollection.
(** Modelled from the spec: the class [WorkerMetricsCollection] of
    [wgkex.broker.metrics], one [WorkerMetrics] per worker id; the
    source reads its [data] attribute in the [/status] handler. *)
Record t := mk { data : gmap string WorkerMetrics.t }.

Definition empty : t := mk ∅.

(** Modelled from the spec: [WorkerMetricsCollection.get].  Spec
    section 4.2: returns the record of the worker, creating it if
    absent. *)
Definition get (c : t) (worker : string) : WorkerMetrics.t * t :=
  match data c !! worker with
  | Some wm => (wm, c)
  | None => (WorkerMetrics.new, mk (<[worker := WorkerMetrics.new]> (data c)))
  end.

(** Modelled from the spec: [WorkerMetricsCollection.update].  Spec
    section 4.2: creates the worker record if absent and sets
    [domain_metrics[domain][metric] = value]. *)
Definition update (c : t) (worker domain metric : string) (value : Z) : t :=
  let '(wm, c') := get c worker in
  mk (<[worker := WorkerMetrics.set_metric wm domain metric value]> (data c')).

(** Modelled from the spec: [WorkerMetricsCollection.set_online] and
    [set_offline].  Spec section 4.2: they set the flag and are
    idempotent. *)
Definition set_online (c : t) (worker : string) : t :=
  let '(wm, c') := get c worker in
  mk (<[worker := WorkerMetrics.set_online_flag wm true]> (data c')).

Definition set_offline (c : t) (worker : string) : t :=
  let '(wm, c') := get c worker in
  mk (<[worker := WorkerMetrics.set_online_flag wm false]> (data c')).

(** Modelled from the spec: [WorkerMetricsCollection.is_online]. *)
Definition is_online (c : t) (worker : string) : bool :=
  match data c !! worker with
  | Some wm => WorkerMetrics.is_online wm
  | None => false
  end.

(** Modelled from the spec: [WorkerMetricsCollection.get_best_worker].
    Spec section 4.2: consider every worker that is online and has a
    recorded [connected_peers] for the domain; return the one with the
    minimum, ties broken by worker id; the third component is that
    minimum and the second the distance to the second lowest, or 0 for
    a single candidate; return [(None, 0, 0)] without candidate.  The
    candidates are sorted as Python sorts the tuples [(peers, worker)]
    and the first one is taken. *)
Definition candidate (domain : string) (entry : string * WorkerMetrics.t)
  : option (Z * string) :=
  let '(wn, wm) := entry in
  if WorkerMetrics.is_online wm then
    match WorkerMetrics.get_domain_metrics wm domain
            !! CONNECTED_PEERS_METRIC with
    | Some peers => Some (peers, wn)
    | None => None
    end
  else None.

Definition candidates (c : t) (domain : string) : list (Z * string) :=
  omap (candidate domain) (map_to_list (data c)).

Definition get_best_worker (c : t) (domain : string)
  : option string * Z * Z :=
  match sorted (candidates c domain) with
  | [] => (None, 0, 0)
  | [(peers, worker)] => (Some worker, 0, peers)
  | (peers, worker) :: (second, _) :: _ => (Some worker, second - peers, peers)
  end.
End WorkerMetricsCollection.

(** ** The process state and what a handler does to the outside *)

Record World := mkWorld {
  worker_metrics : WorkerMetricsCollection.t;
  worker_data : gmap (string * string) WorkerData.t;
  broker_status : gmap string BrokerStatus.t
}.

(** The state at import time: three empty stores. *)
Definition initial : World := mkWorld WorkerMetricsCollection.empty ∅ ∅.

Inductive level := Debug | Info | Warning | Error.

(** What a handler does besides changing the stores, in the order in
    which it does it.  [Select] records the call of
    [worker_metrics.get_best_worker] and its first component. *)
Inductive event :=
  | Log (lvl : level) (text : string)
  | Subscribe (topic : string)
  | Publish (topic payload : string) (qos : Z) (retain : bool)
  | Select (domain : string) (best : option string).

Record outcome (A : Type) := Outcome {
  value : result A;
  world : World;
  trace : list event
}.
Arguments Outcome {A} value world trace.
Arguments value {A} o.
Arguments world {A} o.
Arguments trace {A} o.

(** A handler: a function of the stores that returns or raises, leaves
    new stores and a trace.  What was done before a [raise] stays done. *)
Definition M (A : Type) : Type := World -> outcome A.

Definition ret {A} (a : A) : M A := fun w => Outcome (Return a) w [].

Definition raise {A} (e : exn) : M A := fun w => Outcome (Raise e) w [].

Definition bind {A B} (m : M A) (f : A -> M B) : M B :=
  fun w =>
    match m w with
    | Outcome (Return a) w1 t1 =>
        match f a w1 with
        | Outcome v w2 t2 => Outcome v w2 (t1 ++ t2)
        end
    | Outcome (Raise e) w1 t1 => Outcome (Raise e) w1 t1
    end.

Notation "'do' x <- m ; k" := (bind m (fun x => k))
  (at level 10, x name, m at level 100, k at level 200).
Notation "'run' m ; k" := (bind m (fun _ => k))
  (at level 10, m at level 100, k at level 200).

Definition lift {A} (r : result A) : M A :=
  fun w => Outcome r w [].

Definition emit (e : event) : M unit := fun w => Outcome (Return tt) w [e].

Definition read {A} (f : World -> A) : M A := fun w => Outcome (Return (f w)) w [].

Definition modify (f : World -> World) : M unit :=
  fun w => Outcome (Return tt) (f w) [].

(** [try: m  except: h] with a handler for every exception. *)
Definition try_except {A} (m : M A) (h : exn -> M A) : M A :=
  fun w =>
    match m w with
    | Outcome (Return a) w1 t1 => Outcome (Return a) w1 t1
    | Outcome (Raise e) w1 t1 =>
        match h e w1 with
        | Outcome v w2 t2 => Outcome v w2 (t1 ++ t2)
        end
    end.

Definition set_worker_metrics (c : WorkerMetricsCollection.t) (w : World) : World :=
  mkWorld c (worker_data w) (broker_status w).

Definition set_worker_data (d : gmap (string * string) WorkerData.t) (w : World) : World :=
  mkWorld (worker_metrics w) d (broker_status w).

Definition set_broker_status (b : gmap string BrokerStatus.t) (w : World) : World :=
  mkWorld (worker_metrics w) (worker_data w) b.

Record MQTTMessage := mkMessage { topic : string; payload : string }.

(** The body of an HTTP response: [ErrorOf ex] is
    [{"error": {"message": str(ex)}}], [ErrorMessage m] is
    [{"error": {"message": m}}], [Message m] is [{"Message": m}] and
    [Endpoint] is the [{"Endpoint": {...}}] answer of version 2. *)
Inductive response :=
  | ErrorOf (ex : exn)
  | ErrorMessage (message : string)
  | Message (m : string)
  | Endpoint (address port : string) (allowed_ips : list string)
             (public_key : string).

(** ** The MQTT client: what [publish] refuses *)

Definition is_wildcard (c : ascii) : bool :=
  Ascii.eqb c "+"%char || Ascii.eqb c "#"%char.

(** [b'+' in topic or b'#' in topic] *)
Definition has_wildcard (topic : string) : bool :=
  existsb is_wildcard (str_chars topic).

(** The checks that [Client.publish(topic, payload, qos, retain)] of
    paho-mqtt makes on its arguments before it hands the message on: the
    topic is not empty, has no [+] and no [#] and is at most 65535 bytes
    long, the qos is 0, 1 or 2 and the payload is at most 268435455 bytes
    long.  Texts are held as their UTF-8 bytes, so the lengths are byte
    counts. *)
Definition publishable (topic payload : string) (qos : Z) : bool :=
  negb (String.eqb topic "")
  && negb (has_wildcard topic)
  && (Z.of_nat (String.length topic) <=? 65535)
  && (0 <=? qos) && (qos <=? 2)
  && (Z.of_nat (String.length payload) <=? 268435455).

(** [client.publish(topic, payload, qos, retain)]: a [ValueError] when a
    check fails, and the publication otherwise.  Without a connection the
    call returns an error code, which no caller in the source reads. *)
Definition publish (topic payload : string) (qos : Z) (retain : bool)
  : M unit :=
  if publishable topic payload qos then emit (Publish topic payload qos retain)
  else raise (Exn ValueError None).

(** [sum(1 if broker.online else 0 for broker in broker_status.values())] *)
Definition count_online (b : gmap string BrokerStatus.t) : Z :=
  foldr Z.add 0
    ((fun kv => if BrokerStatus.online kv.2 then 1 else 0) <$> map_to_list b).

(** MQTT topic filters: [+] stands for one level and [#] for the rest. *)
Fixpoint topic_matches_sub (sub topic : list string) : bool :=
  match sub with
  | [] => match topic with [] => true | _ => false end
  | s :: sub' =>
      if String.eqb s "#" then match sub' with [] => true | _ => false end
      else
        match topic with
        | [] => false
        | t :: topic' =>
            (String.eqb s "+" || String.eqb s t) && topic_matches_sub sub' topic'
        end
  end.

Definition levels (t : string) : list string :=
  split slash (String.length t) t.

Definition matches (filter t : string) : bool :=
  topic_matches_sub (levels filter) (levels t).

Section Broker.

(** [wgkex.common.utils.is_valid_domain], which consults the loaded
    configuration. *)
Variable is_valid_domain : string -> bool.

(** [json.loads] on a request body or an MQTT payload. *)
Variable loads : string -> result json.

(** [repr] of the values whose [str] is their [repr]. *)
Variable repr : json -> string.

(** [int(s)] for a [str] argument. *)
Variable int_of_str : string -> result Z.

(** [socket.gethostname()] and the two entries of [app.config] that
    the connect callback prints. *)
Variable HOSTNAME : string.
Variables MQTT_BROKER_URL MQTT_BROKER_PORT : string.

(** [str(v)] *)
Definition str (v : json) : string :=
  match v with
  | JStr s => s
  | JNull => "None"
  | JBool true => "True"
  | JBool false => "False"
  | JInt z => pretty z
  | _ => repr v
  end.

(** [int(v)] *)
Definition int (v : json) : result Z :=
  match v with
  | JInt z => Return z
  | JBool b => Return (if b then 1 else 0)
  | JStr s => int_of_str s
  | JFloat FNaN => Raise (Exn ValueError None)
  | JFloat (FInf _) => Raise (Exn OverflowError None)
  | JFloat (FFinite q) =>
      Return (Z.quot (QArith_base.Qnum q) (Z.pos (QArith_base.Qden q)))
  | _ => Raise (Exn TypeError None)
  end.

(** [is_valid_wg_pubkey]: a value that is not a [str] makes
    [WG_PUBKEY_PATTERN.match] raise [TypeError]. *)
Definition is_valid_wg_pubkey (pubkey : json) : result string :=
  match pubkey with
  | JStr s =>
      if negb (re_match WG_PUBKEY_PATTERN s) then
        Raise (Exn ValueError
                 (Some ("Not a valid Wireguard public key: " +:+ s +:+ ".")))
      else Return s
  | _ => Raise (Exn TypeError None)
  end.

(** [KeyExchange.from_dict] *)
Definition KeyExchange_from_dict (msg : json) : result KeyExchange.t :=
  match get msg "public_key" with
  | Raise e => Raise e
  | Return v =>
      match is_valid_wg_pubkey v with
      | Raise e => Raise e
      | Return public_key =>
          match get msg "domain" with
          | Raise e => Raise e
          | Return d =>
              let domain := str d in
              if negb (is_valid_domain domain) then
                Raise (Exn ValueError
                         (Some ("Domain " +:+ domain
                                +:+ " not in configured domains.")))
              else Return (KeyExchange.mk public_key domain)
          end
      end
  end.

(** [WorkerData.from_dict].  The third statement reads the local name
    [link_address] where no value has been bound to it yet, which
    Python answers with [UnboundLocalError]; [unbound] is that local. *)
Definition WorkerData_from_dict (msg : json) : result WorkerData.t :=
  let unbound : option json := None in
  match get msg "ExternalAddress" with
  | Raise e => Raise e
  | Return ea =>
      let external_address := str ea in
      match get msg "Port" with
      | Raise e => Raise e
      | Return p =>
          match int p with
          | Raise e => Raise e
          | Return port =>
              match unbound with
              | None => Raise (Exn UnboundLocalError None)
              | Some la =>
                  let link_address := str la in
                  match get msg "PublicKey" with
                  | Raise e => Raise e
                  | Return pk =>
                      match is_valid_wg_pubkey (JStr (str pk)) with
                      | Raise e => Raise e
                      | Return public_key =>
                          Return (WorkerData.mk external_address port
                                    link_address public_key)
                      end
                  end
              end
          end
      end
  end.

(** [repr] of a [WorkerData], as [%s] prints it. *)
Definition WorkerData_repr (d : WorkerData.t) : string :=
  "WorkerData(external_address="
    +:+ repr (JStr (WorkerData.external_address d))
    +:+ ", port=" +:+ pretty (WorkerData.port d)
    +:+ ", link_address=" +:+ repr (JStr (WorkerData.link_address d))
    +:+ ", public_key=" +:+ repr (JStr (WorkerData.public_key d)) +:+ ")".

(** [request.get_json(force=True)]: a body that does not parse is a
    [BadRequest]. *)
Definition get_json (body : string) : result json :=
  match loads body with
  | Return v => Return v
  | Raise _ => Raise (Exn BadRequest None)
  end.

(** [worker_metrics.get(worker)] on the global store. *)
Definition worker_metrics_get (worker : string) : M WorkerMetrics.t :=
  fun w =>
    let r := WorkerMetricsCollection.get (worker_metrics w) worker in
    Outcome (Return r.1) (set_worker_metrics r.2 w) [].

Definition worker_metrics_update (worker domain metric : string) (v : Z)
  : M unit :=
  modify (fun w =>
    set_worker_metrics
      (WorkerMetricsCollection.update (worker_metrics w) worker domain metric v)
      w).

(** *** HTTP section *)

Definition wg_api_v1_key_exchange (body : string) : M (response * Z) :=
  match match get_json body with
        | Return msg => KeyExchange_from_dict msg
        | Raise ex => Raise ex
        end with
  | Raise ex => ret (ErrorOf ex, 400)
  | Return data =>
      let key := KeyExchange.public_key data in
      let domain := KeyExchange.domain data in
      let gateway := "all" in
      run emit (Log Info ("wg_api_v1_key_exchange: Domain: " +:+ domain
                          +:+ ", Key:" +:+ key));
      run publish ("wireguard/" +:+ domain +:+ "/" +:+ gateway) key 0 false;
      ret (Message "OK", 200)
  end.

Definition wg_api_v2_key_exchange (body : string) : M (response * Z) :=
  match match get_json body with
        | Return msg => KeyExchange_from_dict msg
        | Raise ex => Raise ex
        end with
  | Raise ex => ret (ErrorOf ex, 400)
  | Return data =>
      let key := KeyExchange.public_key data in
      let domain := KeyExchange.domain data in
      let gateway := "all" in
      run emit (Log Info ("wg_api_v2_key_exchange: Domain: " +:+ domain
                          +:+ ", Key:" +:+ key));
      run publish ("wireguard/" +:+ domain +:+ "/" +:+ gateway) key 0 false;
      do best <- read (fun w =>
        WorkerMetricsCollection.get_best_worker (worker_metrics w) domain);
      let '(best_worker, diff, current_peers) := best in
      run emit (Select domain best_worker);
      match best_worker with
      | None =>
          run emit (Log Warning ("No worker online for domain " +:+ domain));
          ret (ErrorMessage
                 "no gateway online for this domain, please check the domain value and try again later",
               400)
      | Some best_worker =>
          do online_brokers <- read (fun w => count_online (broker_status w));
          do wm <- worker_metrics_get best_worker;
          let current_peers_domain :=
            default 0 (WorkerMetrics.get_domain_metrics wm domain
                         !! CONNECTED_PEERS_METRIC) in
          run worker_metrics_update best_worker domain CONNECTED_PEERS_METRIC
                (current_peers_domain + online_brokers);
          run emit (Log Debug ("Chose worker " +:+ best_worker +:+ " with "
                               +:+ pretty current_peers
                               +:+ " connected clients (" +:+ pretty diff
                               +:+ ")"));
          do w_data <- read (fun w => worker_data w !! (best_worker, domain));
          match w_data with
          | None =>
              run emit (Log Error ("Couldn't get worker endpoint data for "
                                   +:+ best_worker +:+ "/" +:+ domain));
              ret (ErrorMessage "could not get gateway data", 500)
          | Some w_data =>
              ret (Endpoint (WorkerData.external_address w_data)
                            (pretty (WorkerData.port w_data))
                            [WorkerData.link_address w_data]
                            (WorkerData.public_key w_data),
                   200)
          end
      end
  end.

(** *** MQTT section *)

Definition handle_mqtt_connect : M unit :=
  run emit (Log Debug ("MQTT connected to " +:+ MQTT_BROKER_URL +:+ ":"
                       +:+ MQTT_BROKER_PORT));
  run emit (Subscribe "wireguard-metrics/#");
  run emit (Subscribe (TOPIC_WORKER_STATUS "+"));
  run emit (Subscribe (TOPIC_WORKER_WG_DATA "+" "+"));
  run emit (Subscribe (TOPIC_BROKER_STATUS "+"));
  publish (TOPIC_BROKER_STATUS HOSTNAME) "1" 1 true.

Definition handle_mqtt_message_metrics (message : MQTTMessage) : M unit :=
  do text <- lift (decode (payload message));
  run emit (Log Debug ("MQTT message received on " +:+ topic message
                       +:+ ": " +:+ text));
  match split slash 3 (topic message) with
  | [_; domain; worker; metric] =>
      if negb (is_valid_domain domain) then
        emit (Log Error ("Domain " +:+ domain +:+ " not in configured domains"))
      else if String.eqb worker "" || String.eqb metric "" then
        emit (Log Error "Ignored MQTT message with empty worker or metrics label")
      else
        do data <- lift (int_of_bytes (payload message));
        run emit (Log Info ("Update worker metrics: " +:+ metric +:+ " on "
                            +:+ worker +:+ "/" +:+ domain +:+ " = "
                            +:+ pretty data));
        worker_metrics_update worker domain metric data
  | _ => raise (Exn ValueError None)
  end.

Definition handle_mqtt_message_worker_status (message : MQTTMessage)
  : M unit :=
  match split slash 2 (topic message) with
  | [_; worker; _] =>
      do status <- lift (int_of_bytes (payload message));
      do goes_offline <-
        (if status <? 1 then
           do wm <- worker_metrics_get worker;
           ret (WorkerMetrics.is_online wm)
         else ret false);
      if goes_offline then
        run emit (Log Warning ("Marking worker as offline: " +:+ worker));
        modify (fun w =>
          set_worker_metrics
            (WorkerMetricsCollection.set_offline (worker_metrics w) worker) w)
      else
        do goes_online <-
          (if status >=? 1 then
             do wm <- worker_metrics_get worker;
             ret (negb (WorkerMetrics.is_online wm))
           else ret false);
        if goes_online then
          run emit (Log Warning ("Marking worker as online: " +:+ worker));
          modify (fun w =>
            set_worker_metrics
              (WorkerMetricsCollection.set_online (worker_metrics w) worker) w)
        else ret tt
  | _ => raise (Exn ValueError None)
  end.

Definition handle_mqtt_message_data (message : MQTTMessage) : M unit :=
  match split slash 3 (topic message) with
  | [_; worker; domain; _] =>
      if negb (is_valid_domain domain) then
        emit (Log Error ("Domain " +:+ domain +:+ " not in configured domains."))
      else
        do msg <- lift (loads (payload message));
        if negb (isinstance_dict msg) then
          emit (Log Error ("Invalid worker data received for " +:+ worker
                           +:+ "/" +:+ domain +:+ ": " +:+ str msg))
        else
          do parsed <-
            try_except
              (do w_data <- lift (WorkerData_from_dict msg); ret (Some w_data))
              (fun _ =>
                 run emit (Log Error ("Invalid worker data received for "
                                      +:+ worker +:+ "/" +:+ domain +:+ ": "
                                      +:+ str msg));
                 ret None);
          match parsed with
          | None => ret tt
          | Some w_data =>
              run emit (Log Info ("Worker data received for " +:+ worker
                                  +:+ "/" +:+ domain +:+ ": "
                                  +:+ WorkerData_repr w_data));
              modify (fun w =>
                set_worker_data (<[(worker, domain) := w_data]> (worker_data w)) w)
          end
  | _ => raise (Exn ValueError None)
  end.

Definition handle_mqtt_message_broker_status (message : MQTTMessage)
  : M unit :=
  match split slash 2 (topic message) with
  | [_; broker; _] =>
      do status <- lift (int_of_bytes (payload message));
      do broker_status_data <- read (fun w => broker_status w !! broker);
      match broker_status_data with
      | None =>
          if status >=? 1 then
            modify (fun w =>
              set_broker_status
                (<[broker := BrokerStatus.mk true]> (broker_status w)) w)
          else ret tt
      | Some bs =>
          if (status <? 1) && BrokerStatus.online bs then
            run emit (Log Warning ("Marking broker as offline: " +:+ broker));
            modify (fun w =>
              set_broker_status
                (<[broker := BrokerStatus.mk false]> (broker_status w)) w)
          else if (status >=? 1) && negb (BrokerStatus.online bs) then
            run emit (Log Info ("Marking broker as online: " +:+ broker));
            modify (fun w =>
              set_broker_status
                (<[broker := BrokerStatus.mk true]> (broker_status w)) w)
          else ret tt
      end
  | _ => raise (Exn ValueError None)
  end.

Definition handle_mqtt_message (message : MQTTMessage) : M unit :=
  do text <- lift (decode (payload message));
  emit (Log Debug ("MQTT message received on " +:+ topic message
                   +:+ ": " +:+ text)).

(** The callbacks registered with [on_topic], each under its filter, in
    the order of the source. *)
Definition callbacks : list (string * (MQTTMessage -> M unit)) :=
  [ ("wireguard-metrics/#", handle_mqtt_message_metrics);
    (TOPIC_WORKER_STATUS "+", handle_mqtt_message_worker_status);
    (TOPIC_WORKER_WG_DATA "+" "+", handle_mqtt_message_data);
    (TOPIC_BROKER_STATUS "+", handle_mqtt_message_broker_status) ].

Fixpoint call_all (cbs : list (string * (MQTTMessage -> M unit)))
                  (message : MQTTMessage) : M unit :=
  match cbs with
  | [] => ret tt
  | (_, cb) :: cbs' => run cb message; call_all cbs' message
  end.

(** The ingress router: the client calls every callback whose filter
    matches the topic, and [handle_mqtt_message] when none does. *)
Definition on_message (message : MQTTMessage) : M unit :=
  match filter (fun cb => matches cb.1 (topic message) = true) callbacks with
  | [] => handle_mqtt_message message
  | cbs => call_all cbs message
  end.

(** The four callbacks by name, and what makes a payload malformed
    for each: on the metrics and status topics a payload that [int]
    rejects; on the data topic a payload that [json.loads] rejects, a
    document that is not an object, or an object whose [Port] [int]
    rejects or whose [PublicKey] the validator rejects (a field that is
    missing reads as [None]). *)
Inductive callback :=
  | OnMetrics
  | OnWorkerStatus
  | OnWorkerData
  | OnBrokerStatus.

Definition callback_of (k : callback) : MQTTMessage -> M unit :=
  match k with
  | OnMetrics => handle_mqtt_message_metrics
  | OnWorkerStatus => handle_mqtt_message_worker_status
  | OnWorkerData => handle_mqtt_message_data
  | OnBrokerStatus => handle_mqtt_message_broker_status
  end.

Definition bad_worker_data (msg : json) : bool :=
  match msg with
  | JDict d =>
      raises (int (dict_get d "Port"))
      || raises (is_valid_wg_pubkey (JStr (str (dict_get d "PublicKey"))))
  | _ => true
  end.

Definition malformed (k : callback) (message : MQTTMessage) : bool :=
  match k with
  | OnWorkerData =>
      match loads (payload message) with
      | Return msg => bad_worker_data msg
      | Raise _ => true
      end
  | _ => raises (int_of_bytes (payload message))
  end.

(** *** Executions: the inputs arrive one at a time *)

Inductive input :=
  | Connect
  | Mqtt (message : MQTTMessage)
  | PostV1 (body : string)
  | PostV2 (body : string).

(** One input, run to its end; an exception that leaves a callback
    does not undo what the callback has done. *)
Definition step (w : World) (i : input) : World :=
  match i with
  | Connect => world (handle_mqtt_connect w)
  | Mqtt m => world (on_message m w)
  | PostV1 body => world (wg_api_v1_key_exchange body w)
  | PostV2 body => world (wg_api_v2_key_exchange body w)
  end.

Definition run_inputs (w : World) (l : list input) : World :=
  foldl step w l.

End Broker.

(** ** Notions used in the statements *)

Definition no_slash (s : string) : bool :=
  forallb (fun c => negb (Ascii.eqb c slash)) (str_chars s).

(** [eligible c d w p]: worker [w] is online in [c] and its recorded
    [connected_peers] for domain [d] is [p]. *)
Definition eligible (c : WorkerMetricsCollection.t) (d w : string) (p : Z)
  : Prop :=
  exists wm,
    WorkerMetricsCollection.data c !! w = Some wm
    /\ WorkerMetrics.online wm = true
    /\ WorkerMetrics.domain_data wm !! d ≫= (.!! CONNECTED_PEERS_METRIC)
       = Some p.

(** The recorded [connected_peers] of worker [w] for domain [d], if any. *)
Definition peers (c : WorkerMetricsCollection.t) (w d : string) : option Z :=
  WorkerMetricsCollection.data c !! w
    ≫= fun wm => WorkerMetrics.domain_data wm !! d
    ≫= (.!! CONNECTED_PEERS_METRIC).

(** Message [m] announces broker [b] online: the callback reads [b]
    from its topic and an integer of 1 or more from its payload. *)
Definition announces (b : string) (m : MQTTMessage) : bool :=
  match split slash 2 (topic m), int_of_bytes (payload m) with
  | [_; broker; _], Return status => String.eqb broker b && (1 <=? status)
  | _, _ => false
  end.

(** What a handler does to the outside, its logging left out. *)
Definition is_log (e : event) : bool :=
  match e with Log _ _ => true | _ => false end.

Definition effects (t : list event) : list event :=
  List.filter (fun e => negb (is_log e)) t.

(** The callback was left by an exception. *)
Definition raised {A} (o : outcome A) : bool := raises (value o).

(** An error was logged. *)
Definition logged_error {A} (o : outcome A) : Prop :=
  exists text, Log Error text ∈ trace o.

(** ** A configuration for the closed examples

    One configured domain, [ffda]; a key of the right shape; and, for
    [json.loads], the documents that the examples send, each with its
    decoding.  The examples send no other text but [abc], which
    [json.loads] rejects. *)

Definition configured (domains : list string) (d : string) : bool :=
  bool_decide (d ∈ domains).

Definition ffda : string -> bool := configured ["ffda"].

Definition key44 : string := "AAAAAAAAAAAAAAAAAAAAAAAAAAAAAAAAAAAAAAAAAAA=".

(** A JSON string literal and a JSON object with the given members. *)
Definition quoted (s : string) : string :=
  String "034"%char s +:+ String "034"%char "".

Definition member (name value : string) : string :=
  quoted name +:+ ": " +:+ value.

Definition request_text : string :=
  "{" +:+ member "public_key" (quoted key44) +:+ ", "
      +:+ member "domain" (quoted "ffda") +:+ "}".

Definition endpoint_text : string :=
  "{" +:+ member "ExternalAddress" (quoted "gw1.example") +:+ ", "
      +:+ member "Port" "51820" +:+ ", "
      +:+ member "LinkAddress" (quoted "fe80::1/64") +:+ ", "
      +:+ member "PublicKey" (quoted key44) +:+ "}".

Definition documents : list (string * json) :=
  [ (request_text,
     JDict [("public_key", JStr key44); ("domain", JStr "ffda")]);
    (endpoint_text,
     JDict [("ExternalAddress", JStr "gw1.example"); ("Port", JInt 51820);
            ("LinkAddress", JStr "fe80::1/64"); ("PublicKey", JStr key44)]);
    ("[]", JList []);
    ("{}", JDict []) ].

Definition loads_documents (text : string) : result json :=
  match list_find (fun kv => kv.1 = text) documents with
  | Some (_, (_, v)) => Return v
  | None => Raise (Exn JSONDecodeError None)
  end.

(** For [repr], which only shapes log texts: a string between quotes,
    anything else elided. *)
Definition repr_plain (v : json) : string :=
  match v with
  | JStr s => "'" +:+ s +:+ "'"
  | _ => "..."
  end.

(** The request of the spec's scenarios, decoded and validated. *)
Definition example_request : json :=
  JDict [("public_key", JStr key44); ("domain", JStr "ffda")].

Definition example_exchange : KeyExchange.t := KeyExchange.mk key44 "ffda".

(** A state with one worker online, ten peers recorded for it in [ffda],
    and one broker announced; the worker is named so that the status
    callback reads its name from the spec's topic. *)
Definition example_inputs : list input :=
  [ Connect;
    Mqtt (mkMessage (TOPIC_BROKER_STATUS "broker1") "1");
    Mqtt (mkMessage (TOPIC_WORKER_STATUS "worker") "1");
    Mqtt (mkMessage "wireguard-metrics/ffda/worker/connected_peers" "10") ].

Definition example_state : World :=
  run_inputs ffda loads_documents repr_plain int_of_bytes
    "broker1" "mqtt.example" "1883" initial example_inputs.

(** The same without the broker announcement: the worker messages have
    arrived, no broker-status message has. *)
Definition early_inputs : list input :=
  [ Connect;
    Mqtt (mkMessage (TOPIC_WORKER_STATUS "worker") "1");
    Mqtt (mkMessage "wireguard-metrics/ffda/worker/connected_peers" "10") ].

Definition early_state : World :=
  run_inputs ffda loads_documents repr_plain int_of_bytes
    "broker1" "mqtt.example" "1883" initial early_inputs.

(** ** The rest of the source *)

(** [s.find(c)] for a one-character [c]: the index of the first
    occurrence, or -1. *)
Fixpoint find_from (c : ascii) (i : Z) (s : string) : Z :=
  match s with
  | EmptyString => -1
  | String x s' => if Ascii.eqb x c then i else find_from c (i + 1) s'
  end.

Definition find (s : string) (c : ascii) : Z := find_from c 0 s.

(** [join_host_port] *)
Definition join_host_port (host port : string) : string :=
  if find host ":"%char >=? 0 then "[" +:+ host +:+ "]:" +:+ port
  else host +:+ ":" +:+ port.

(** [sum(f(v) for v in m.values())] *)
Definition tally {V} (f : V -> Z) (m : gmap string V) : Z :=
  foldr Z.add 0 ((fun kv => f kv.2) <$> map_to_list m).

Definition flag (b : bool) : Z := if b then 1 else 0.

(** [sum(1 if worker.is_online() else 0
         for worker in worker_metrics.data.values())] *)
Definition count_online_workers (c : WorkerMetricsCollection.t) : Z :=
  foldr Z.add 0
    ((fun kv => if WorkerMetrics.is_online kv.2 then 1 else 0)
       <$> map_to_list (WorkerMetricsCollection.data c)).

(** Modelled from the spec: [WorkerMetricsCollection.get_total_peer_count]
    of [wgkex.broker.metrics].  Spec section 4.2: the sum of
    [connected_peers] across all online workers across all domains. *)
Definition get_total_peer_count (c : WorkerMetricsCollection.t) : Z :=
  foldr Z.add 0
    ((fun kv =>
        if WorkerMetrics.is_online kv.2 then
          foldr Z.add 0
            ((fun dm => default 0 (dm.2 !! CONNECTED_PEERS_METRIC))
               <$> map_to_list (WorkerMetrics.domain_data kv.2))
        else 0)
       <$> map_to_list (WorkerMetricsCollection.data c)).

(** [status]: the text and the status code. *)
Definition status : M (string * Z) :=
  let response := "" in
  do online_brokers <- read (fun w => count_online (broker_status w));
  let response :=
    response +:+ "online-brokers: " +:+ pretty online_brokers
             +:+ String newline "" in
  do online_workers <-
    read (fun w => count_online_workers (worker_metrics w));
  let response :=
    response +:+ "online-workers: " +:+ pretty online_workers
             +:+ String newline "" in
  do total_peers <- read (fun w => get_total_peer_count (worker_metrics w));
  let response :=
    response +:+ "total-peers: " +:+ pretty total_peers
             +:+ String newline "" in
  ret (response, 200).

Section Requests.

Variable is_valid_domain : string -> bool.
Variable loads : string -> result json.
Variable repr : json -> string.

(** [KeyExchange.from_dict(request.get_json(force=True))], the first
    statement of both key-exchange handlers. *)
Definition parse_request (body : string) : result KeyExchange.t :=
  match get_json loads body with
  | Return msg => KeyExchange_from_dict is_valid_domain repr msg
  | Raise ex => Raise ex
  end.

(** The request is accepted and the client refuses to publish its key:
    the case in which the handlers are left by [publish]. *)
Definition refused (body : string) : bool :=
  match parse_request body with
  | Return data =>
      negb (publishable ("wireguard/" +:+ KeyExchange.domain data +:+ "/all")
              (KeyExchange.public_key data) 0)
  | Raise _ => false
  end.

(** Every domain under which a worker has metrics is configured. *)
Definition domains_configured (c : WorkerMetricsCollection.t) : Prop :=
  forall w wm d,
    WorkerMetricsCollection.data c !! w = Some wm ->
    is_Some (WorkerMetrics.domain_data wm !! d) ->
    is_valid_domain d = true.

(** A publication of a key: the topic is [wireguard/<domain>/all] for a
    configured domain and the payload is accepted by the pattern. *)
Definition validated (e : event) : Prop :=
  match e with
  | Publish t p _ _ =>
      exists d, t = "wireguard/" +:+ d +:+ "/all"
                /\ is_valid_domain d = true
                /\ re_match WG_PUBKEY_PATTERN p = true
  | _ => True
  end.

End Requests.

Definition no_colon (s : string) : bool :=
  forallb (fun c => negb (Ascii.eqb c ":"%char)) (str_chars s).

(** The answer codes of the two key-exchange handlers. *)
Definition code {A} (o : outcome (A * Z)) : option Z :=
  match value o with
  | Return (_, c) => Some c
  | Raise _ => None
  end.

(** A state with an endpoint record for the worker of [example_state],
    as the data callback is meant to leave it. *)
Definition example_endpoint : WorkerData.t :=
  WorkerData.mk "gw1.example" 51820 "fe80::1/64" key44.

Definition endpoint_state : World :=
  set_worker_data {[ ("worker", "ffda") := example_endpoint ]} example_state.

(** Two more requests for the closed examples: one with a key that the
    pattern rejects and an unconfigured domain, one without domain. *)
Definition bad_key_text : string :=
  "{" +:+ member "public_key" (quoted "short") +:+ ", "
      +:+ member "domain" (quoted "nope") +:+ "}".

Definition no_domain_text : string :=
  "{" +:+ member "public_key" (quoted key44) +:+ "}".

Definition bad_key_fields : list (string * json) :=
  [("public_key", JStr "short"); ("domain", JStr "nope")].

Definition no_domain_fields : list (string * json) :=
  [("public_key", JStr key44)].

(** A configuration whose one domain has a [+] in its name, and a
    request for that domain. *)
Definition ffplus : string -> bool := configured ["ff+da"].

Definition wildcard_text : string :=
  "{" +:+ member "public_key" (quoted key44) +:+ ", "
      +:+ member "domain" (quoted "ff+da") +:+ "}".

Definition wildcard_fields : list (string * json) :=
  [("public_key", JStr key44); ("domain", JStr "ff+da")].

Definition loads_wildcard (text : string) : result json :=
  if String.eqb text wildcard_text then Return (JDict wildcard_fields)
  else Raise (Exn JSONDecodeError None).

Definition more_documents : list (string * json) :=
  documents ++ [ (bad_key_text, JDict bad_key_fields);
                 (no_domain_text, JDict no_domain_fields) ].

Definition loads_more (text : string) : result json :=
  match list_find (fun kv => kv.1 = text) more_documents with
  | Some (_, (_, v)) => Return v
  | None => Raise (Exn JSONDecodeError None)
  end.

(** * Properties *)

(** ** Strings *)

Lemma append_cons (c : ascii) (s t : string) :
  String c s +:+ t = String c (s +:+ t).
Proof. reflexivity. Qed.

Lemma append_nil_l (t : string) : "" +:+ t = t.
Proof. reflexivity. Qed.

Lemma append_nil_r (s : string) : s +:+ "" = s.
Proof. induction s as [|c s IH]; [reflexivity |]. by rewrite append_cons, IH. Qed.

Lemma append_assoc (a b c : string) : (a +:+ b) +:+ c = a +:+ (b +:+ c).
Proof.
  induction a as [|x a IH]; [reflexivity |]. by rewrite !append_cons, IH.
Qed.

Lemma split_go_0 sep cur s : split_go sep 0 cur s = [cur +:+ s].
Proof. destruct s; simpl; [by rewrite append_nil_r | reflexivity]. Qed.

(** A level without separator is cut off at the separator after it. *)
Lemma split_go_level m cur p s :
  no_slash p = true →
  split_go slash (S m) cur (p +:+ String slash s)
  = (cur +:+ p) :: split_go slash m "" s.
Proof.
  revert cur. induction p as [|c p IH]; intros cur Hp.
  - rewrite append_nil_l, append_nil_r. reflexivity.
  - unfold no_slash in Hp. simpl in Hp. apply andb_true_iff in Hp as [Hc Hp].
    rewrite append_cons. simpl. apply negb_true_iff in Hc. rewrite Hc.
    rewrite IH by exact Hp. by rewrite append_assoc.
Qed.

Lemma split_three p w rest :
  no_slash p = true → no_slash w = true →
  split slash 2 (p +:+ "/" +:+ w +:+ "/" +:+ rest) = [p; w; rest].
Proof.
  intros Hp Hw. unfold split.
  change (p +:+ "/" +:+ w +:+ "/" +:+ rest)
    with (p +:+ String slash (w +:+ String slash rest)).
  rewrite split_go_level by exact Hp.
  rewrite split_go_level by exact Hw.
  by rewrite split_go_0.
Qed.

(** ** The key pattern *)

Lemma take_class_inv cls n k r :
  take_class cls n k = Some r →
  ∃ p, k = p +:+ r ∧ ∀ r', take_class cls n (p +:+ r') = Some r'.
Proof.
  revert k. induction n as [|n IH]; intros k H; simpl in H.
  - injection H as ->. exists "". split; reflexivity.
  - destruct k as [|c k]; [discriminate |].
    destruct (in_class cls c) eqn:Hc; [| discriminate].
    destruct (IH _ H) as (p & -> & Hp).
    exists (String c p). split; [reflexivity |].
    intros r'. rewrite append_cons. simpl. by rewrite Hc.
Qed.

Lemma at_end_inv s : at_end s = true → s = "" ∨ s = String newline "".
Proof.
  destruct s as [|c [|d s]]; simpl; intros H; try discriminate; auto.
  apply Ascii.eqb_eq in H. subst. auto.
Qed.

(** What [WG_PUBKEY_PATTERN.match] accepts: the 44-character keys, and
    the 44-character keys followed by one newline. *)
Lemma re_match_pubkey k :
  re_match WG_PUBKEY_PATTERN k = true ↔
  wg_key_shape k = true ∨
  ∃ k0, k = k0 +:+ String newline "" ∧ wg_key_shape k0 = true.
Proof.
  unfold re_match, WG_PUBKEY_PATTERN, wg_key_shape.
  cbn [match_here andb Nat.eqb].
  split.
  - destruct (take_class base64_class 42 k) as [r|] eqn:Hk; [| discriminate].
    destruct r as [|c [|e s3]]; try discriminate.
    { rewrite andb_false_r. discriminate. }
    rewrite !andb_true_iff. intros (Hc & He & Hend & _).
    destruct (at_end_inv _ Hend) as [-> | ->].
    + left. by rewrite Hc, He.
    + right. destruct (take_class_inv _ _ _ _ Hk) as (p & -> & Hp).
      exists (p +:+ String c (String e "")). split.
      * by rewrite append_assoc.
      * rewrite Hp. cbv beta iota. by rewrite Hc, He.
  - intros [H | (k0 & -> & H)].
    + destruct (take_class base64_class 42 k) as [[|c [|e [|]]]|];
        try discriminate.
      apply andb_true_iff in H as [-> ->]. reflexivity.
    + destruct (take_class base64_class 42 k0) as [r|] eqn:Hk; [| discriminate].
      destruct r as [|c [|e [|]]]; try discriminate.
      apply andb_true_iff in H as [Hc He].
      destruct (take_class_inv _ _ _ _ Hk) as (p & -> & Hp).
      rewrite append_assoc, Hp, !append_cons, append_nil_l.
      cbv beta iota. rewrite Hc, He. reflexivity.
Qed.

(** The validator on a [str]: it returns its argument or raises
    [ValueError], and it returns exactly on what the pattern accepts. *)
Lemma is_valid_wg_pubkey_str k :
  is_valid_wg_pubkey (JStr k)
  = if re_match WG_PUBKEY_PATTERN k then Return k
    else Raise (Exn ValueError
                  (Some ("Not a valid Wireguard public key: " +:+ k +:+ "."))).
Proof.
  unfold is_valid_wg_pubkey. by destruct (re_match WG_PUBKEY_PATTERN k).
Qed.

(** A key of the right shape is accepted with a newline after it. *)
Lemma is_valid_wg_pubkey_newline k :
  wg_key_shape k = true →
  is_valid_wg_pubkey (JStr (k +:+ String newline ""))
  = Return (k +:+ String newline "").
Proof.
  intros H. rewrite is_valid_wg_pubkey_str.
  assert (re_match WG_PUBKEY_PATTERN (k +:+ String newline "") = true) as ->
    by (apply re_match_pubkey; eauto).
  reflexivity.
Qed.

(** C7.  The validator returns a string unchanged exactly when
    [WG_PUBKEY_PATTERN.match] accepts it and raises [ValueError]
    otherwise, and Python's [$] also holds before a final newline.  So it
    returns unchanged the strings of the shape that the regular
    expression describes and, besides them, every such string followed by
    a newline: the 45 characters of [key44] and a newline do not have the
    shape, and the validator returns them instead of raising. *)
Theorem pubkey_trailing_newline_accepted (k : string) :
  (is_valid_wg_pubkey (JStr k) = Return k
   ↔ wg_key_shape k = true
     ∨ ∃ k0, k = k0 +:+ String newline "" ∧ wg_key_shape k0 = true)
  ∧ (is_valid_wg_pubkey (JStr k) = Return k
     ∨ is_valid_wg_pubkey (JStr k)
       = Raise (Exn ValueError
                  (Some ("Not a valid Wireguard public key: " +:+ k +:+ "."))))
  ∧ wg_key_shape (key44 +:+ String newline "") = false
  ∧ is_valid_wg_pubkey (JStr (key44 +:+ String newline ""))
    = Return (key44 +:+ String newline "").
Proof.
  split; [| split; [| split; vm_compute; reflexivity]].
  - rewrite <- re_match_pubkey, is_valid_wg_pubkey_str.
    destruct (re_match WG_PUBKEY_PATTERN k); split; congruence.
  - rewrite is_valid_wg_pubkey_str.
    destruct (re_match WG_PUBKEY_PATTERN k); auto.
Qed.

(** ** The order of the candidates *)

Lemma leb_refl (s : string) : String.leb s s = true.
Proof. apply Is_true_true. change (String.le s s). reflexivity. Qed.

Lemma leb_trans (a b c : string) :
  String.leb a b = true → String.leb b c = true → String.leb a c = true.
Proof.
  intros H1%Is_true_true H2%Is_true_true. apply Is_true_true.
  change (String.le a c). by trans b.
Qed.

Lemma tuple_leb_refl x : tuple_leb x x = true.
Proof.
  unfold tuple_leb. rewrite Z.eqb_refl, leb_refl. apply orb_true_r.
Qed.

Lemma tuple_leb_total x y : tuple_leb x y = false → tuple_leb y x = true.
Proof.
  unfold tuple_leb. intros H.
  apply orb_false_iff in H as [H1 H2]. apply Z.ltb_ge in H1.
  apply orb_true_iff.
  destruct (Z.eqb_spec x.1 y.1) as [E | N]; [| left; apply Z.ltb_lt; lia].
  right. simpl in H2. rewrite E, Z.eqb_refl. simpl.
  destruct (String.leb_total x.2 y.2); congruence.
Qed.

Lemma tuple_leb_trans x y z :
  tuple_leb x y = true → tuple_leb y z = true → tuple_leb x z = true.
Proof.
  unfold tuple_leb. rewrite !orb_true_iff, !andb_true_iff, !Z.ltb_lt, !Z.eqb_eq.
  intros [H1 | [H1 L1]] [H2 | [H2 L2]]; try (left; lia).
  right. split; [lia | by eapply leb_trans].
Qed.

Lemma elem_of_insert_sorted x y l : y ∈ insert_sorted x l ↔ y = x ∨ y ∈ l.
Proof.
  induction l as [|h l IH]; simpl.
  - rewrite list_elem_of_singleton, elem_of_nil. tauto.
  - destruct (tuple_leb x h); rewrite !elem_of_cons, ?IH; tauto.
Qed.

Lemma elem_of_sorted y l : y ∈ sorted l ↔ y ∈ l.
Proof.
  induction l as [|h l IH]; simpl; [done |].
  rewrite elem_of_insert_sorted, elem_of_cons, IH. tauto.
Qed.

(** The head of the sorted list is below every element. *)
Lemma sorted_head_min l x r :
  sorted l = x :: r → ∀ y, y ∈ l → tuple_leb x y = true.
Proof.
  revert x r. induction l as [|a l IH]; intros x r Hs y Hy.
  - by apply elem_of_nil in Hy.
  - simpl in Hs. destruct (sorted l) as [|h t] eqn:Hl.
    + simpl in Hs. injection Hs as <- <-.
      apply elem_of_cons in Hy as [-> | Hy]; [apply tuple_leb_refl |].
      apply elem_of_sorted in Hy. rewrite Hl in Hy. by apply elem_of_nil in Hy.
    + simpl in Hs. destruct (tuple_leb a h) eqn:Hah.
      * injection Hs as <- <-.
        apply elem_of_cons in Hy as [-> | Hy]; [apply tuple_leb_refl |].
        eapply tuple_leb_trans; [exact Hah | by eapply IH].
      * injection Hs as <- <-.
        apply elem_of_cons in Hy as [-> | Hy]; [by apply tuple_leb_total |].
        by eapply IH.
Qed.

(** ** Worker selection *)

Lemma get_domain_metrics_lookup wm d k :
  WorkerMetrics.get_domain_metrics wm d !! k
  = WorkerMetrics.domain_data wm !! d ≫= (.!! k).
Proof.
  unfold WorkerMetrics.get_domain_metrics.
  destruct (WorkerMetrics.domain_data wm !! d); simpl; [done | apply lookup_empty].
Qed.

Lemma elem_of_candidates c d w p :
  (p, w) ∈ WorkerMetricsCollection.candidates c d ↔ eligible c d w p.
Proof.
  unfold WorkerMetricsCollection.candidates, eligible.
  rewrite list_elem_of_omap. split.
  - intros ([wn wm] & Hin & Hc). apply elem_of_map_to_list in Hin.
    unfold WorkerMetricsCollection.candidate, WorkerMetrics.is_online in Hc.
    destruct (WorkerMetrics.online wm) eqn:Ho; [| discriminate].
    rewrite get_domain_metrics_lookup in Hc.
    destruct (_ ≫= _) as [q|] eqn:Hq; [| discriminate].
    injection Hc as -> ->. eauto.
  - intros (wm & Hw & Ho & Hp). exists (w, wm). split.
    + by apply elem_of_map_to_list.
    + unfold WorkerMetricsCollection.candidate, WorkerMetrics.is_online.
      by rewrite Ho, get_domain_metrics_lookup, Hp.
Qed.

(** C1.  The workers that [get_best_worker] considers for a domain are
    exactly the online workers with a recorded [connected_peers] for it.
    When it returns a worker, that worker is one of them (so it is
    online), the third component is its peer count, and every other one
    has more peers, or as many and a worker id that is not smaller.  It
    returns [(None, 0, 0)] exactly when there is no such worker. *)
Theorem get_best_worker_selects (c : WorkerMetricsCollection.t) (d : string) :
  (∀ w p, (p, w) ∈ WorkerMetricsCollection.candidates c d ↔ eligible c d w p)
  ∧ match WorkerMetricsCollection.get_best_worker c d with
    | (Some w, diff, current) =>
        eligible c d w current
        ∧ WorkerMetricsCollection.is_online c w = true
        ∧ ∀ w' p', eligible c d w' p' →
                   current < p' ∨ (current = p' ∧ String.leb w w' = true)
    | (None, diff, current) =>
        diff = 0 ∧ current = 0 ∧ ∀ w' p', ¬ eligible c d w' p'
    end.
Proof.
  split; [intros w p; apply elem_of_candidates |].
  unfold WorkerMetricsCollection.get_best_worker.
  destruct (sorted (WorkerMetricsCollection.candidates c d))
    as [|[p w] r] eqn:Hs.
  - repeat split. intros w' p' He%elem_of_candidates%elem_of_sorted.
    rewrite Hs in He. by apply elem_of_nil in He.
  - assert (Hbest : eligible c d w p
              ∧ WorkerMetricsCollection.is_online c w = true
              ∧ ∀ w' p', eligible c d w' p' →
                         p < p' ∨ (p = p' ∧ String.leb w w' = true)).
    { assert (He : eligible c d w p).
      { apply elem_of_candidates, elem_of_sorted. rewrite Hs. left. }
      split; [exact He | split].
      - destruct He as (wm & Hw & Ho & _).
        unfold WorkerMetricsCollection.is_online. by rewrite Hw.
      - intros w' p' He'%elem_of_candidates.
        pose proof (sorted_head_min _ _ _ Hs _ He') as Hle.
        unfold tuple_leb in Hle. simpl in Hle.
        apply orb_true_iff in Hle
          as [Hlt%Z.ltb_lt | [Heq%Z.eqb_eq Hw]%andb_true_iff]; auto. }
    destruct r as [|[p2 w2] r]; exact Hbest.
Qed.
(** ** Running a handler *)

Ltac exec :=
  cbn [bind ret lift emit read modify raise try_except
       worker_metrics_get worker_metrics_update
       value world trace topic payload
       worker_metrics worker_data broker_status
       set_worker_metrics set_worker_data set_broker_status
       fst snd app negb andb orb].

(** ** The worker metrics store *)

Lemma get_fst c w :
  (WorkerMetricsCollection.get c w).1
  = default WorkerMetrics.new (WorkerMetricsCollection.data c !! w).
Proof.
  unfold WorkerMetricsCollection.get.
  by destruct (WorkerMetricsCollection.data c !! w).
Qed.

Lemma get_snd_lookup c w w' :
  WorkerMetricsCollection.data (WorkerMetricsCollection.get c w).2 !! w'
  = if decide (w = w')
    then Some (default WorkerMetrics.new (WorkerMetricsCollection.data c !! w))
    else WorkerMetricsCollection.data c !! w'.
Proof.
  unfold WorkerMetricsCollection.get.
  destruct (WorkerMetricsCollection.data c !! w) as [wm|] eqn:Hl; simpl.
  - case_decide; congruence.
  - rewrite lookup_insert. by case_decide.
Qed.

Lemma is_online_get c w w' :
  WorkerMetricsCollection.is_online (WorkerMetricsCollection.get c w).2 w'
  = WorkerMetricsCollection.is_online c w'.
Proof.
  unfold WorkerMetricsCollection.is_online. rewrite get_snd_lookup.
  case_decide as E; [subst w' | done].
  by destruct (WorkerMetricsCollection.data c !! w).
Qed.

Lemma set_online_lookup c w w' :
  WorkerMetricsCollection.data (WorkerMetricsCollection.set_online c w) !! w'
  = if decide (w = w')
    then Some (WorkerMetrics.set_online_flag
                 (default WorkerMetrics.new (WorkerMetricsCollection.data c !! w))
                 true)
    else WorkerMetricsCollection.data c !! w'.
Proof.
  unfold WorkerMetricsCollection.set_online.
  pose proof (get_fst c w) as H1. pose proof (get_snd_lookup c w w') as H2.
  destruct (WorkerMetricsCollection.get c w) as [wm c']. simpl in *.
  rewrite lookup_insert. case_decide; [by rewrite H1 | by rewrite H2].
Qed.

Lemma set_offline_lookup c w w' :
  WorkerMetricsCollection.data (WorkerMetricsCollection.set_offline c w) !! w'
  = if decide (w = w')
    then Some (WorkerMetrics.set_online_flag
                 (default WorkerMetrics.new (WorkerMetricsCollection.data c !! w))
                 false)
    else WorkerMetricsCollection.data c !! w'.
Proof.
  unfold WorkerMetricsCollection.set_offline.
  pose proof (get_fst c w) as H1. pose proof (get_snd_lookup c w w') as H2.
  destruct (WorkerMetricsCollection.get c w) as [wm c']. simpl in *.
  rewrite lookup_insert. case_decide; [by rewrite H1 | by rewrite H2].
Qed.

Lemma is_online_set_online c w :
  WorkerMetricsCollection.is_online (WorkerMetricsCollection.set_online c w) w = true.
Proof.
  unfold WorkerMetricsCollection.is_online.
  rewrite set_online_lookup. by case_decide.
Qed.

Lemma is_online_set_offline c w :
  WorkerMetricsCollection.is_online (WorkerMetricsCollection.set_offline c w) w = false.
Proof.
  unfold WorkerMetricsCollection.is_online.
  rewrite set_offline_lookup. by case_decide.
Qed.

Lemma is_online_fst_get c w :
  WorkerMetrics.is_online (WorkerMetricsCollection.get c w).1
  = WorkerMetricsCollection.is_online c w.
Proof.
  rewrite get_fst. unfold WorkerMetricsCollection.is_online.
  by destruct (WorkerMetricsCollection.data c !! w).
Qed.

(** ** Worker status *)

(** C2, as the code has it.  The callback cuts the topic at its first two
    separators and takes the second level as the worker.  On a topic
    [p/w/rest] whose first two levels are [p] and [w], an integer payload
    of 1 or more leaves [w] online and any other integer payload leaves
    it offline; the callback returns, and no other worker and no other
    store is touched. *)
Theorem worker_status_second_level
    (p w rest pl : string) (status : Z) (st : World) :
  no_slash p = true → no_slash w = true →
  int_of_bytes pl = Return status →
  let o := handle_mqtt_message_worker_status
             (mkMessage (p +:+ "/" +:+ w +:+ "/" +:+ rest) pl) st in
  value o = Return tt
  ∧ WorkerMetricsCollection.is_online (worker_metrics (world o)) w
    = (1 <=? status)
  ∧ (∀ w', w' ≠ w →
       WorkerMetricsCollection.data (worker_metrics (world o)) !! w'
       = WorkerMetricsCollection.data (worker_metrics st) !! w')
  ∧ worker_data (world o) = worker_data st
  ∧ broker_status (world o) = broker_status st.
Proof.
  intros Hp Hw Hi o. subst o. unfold handle_mqtt_message_worker_status.
  cbn [topic payload]. rewrite split_three by assumption. rewrite Hi.
  assert (Hge : (status >=? 1) = (1 <=? status)) by apply Z.geb_leb.
  assert (Hlt : (status <? 1) = negb (1 <=? status)).
  { rewrite Z.ltb_antisym. reflexivity. }
  exec. rewrite Hlt. clear Hlt.
  destruct (1 <=? status); exec; rewrite ?Hge; exec;
    rewrite is_online_fst_get;
    destruct (WorkerMetricsCollection.is_online (worker_metrics st) w) eqn:Ho;
    exec; rewrite ?Hge; exec; rewrite ?is_online_fst_get, ?is_online_get, ?Ho; exec.
  all: rewrite ?is_online_set_online, ?is_online_set_offline.
  all: repeat split; try done.
  all: intros w' Hne.
  all: rewrite ?set_online_lookup, ?set_offline_lookup, ?get_snd_lookup.
  all: repeat case_decide; congruence.
Qed.

Lemma worker_status_second_level_witness :
  no_slash "wireguard-worker" = true
  ∧ no_slash "gw1" = true
  ∧ int_of_bytes "1" = Return 1
  ∧ WorkerMetricsCollection.is_online
      (worker_metrics
         (world (handle_mqtt_message_worker_status
                   (mkMessage "wireguard-worker/gw1/status" "1") initial)))
      "gw1" = true.
Proof.
  refine (conj eq_refl (conj eq_refl (conj eq_refl _))).
  exact (proj1 (proj2 (worker_status_second_level
                         "wireguard-worker" "gw1" "status" "1" 1 initial
                         eq_refl eq_refl eq_refl))).
Defined.

(** C2, as the spec states it, fails: on the topic
    [wireguard/worker/gw1/status] the second level is the word [worker],
    so a payload of 1 brings a worker of that name online and leaves
    [gw1] offline. *)
Lemma worker_status_spec_topic :
  let o := on_message ffda loads_documents repr_plain int_of_bytes
             (mkMessage (TOPIC_WORKER_STATUS "gw1") "1") initial in
  value o = Return tt
  ∧ WorkerMetricsCollection.is_online (worker_metrics (world o)) "gw1" = false
  ∧ WorkerMetricsCollection.is_online (worker_metrics (world o)) "worker" = true.
Proof. vm_compute. repeat split. Qed.

(** ** Broker liveness *)

Lemma broker_status_step (m : MQTTMessage) (st : World) :
  let o := handle_mqtt_message_broker_status m st in
  worker_metrics (world o) = worker_metrics st
  ∧ worker_data (world o) = worker_data st
  ∧ broker_status (world o)
    = match split slash 2 (topic m), int_of_bytes (payload m) with
      | [_; broker; _], Return status =>
          match broker_status st !! broker with
          | None =>
              if 1 <=? status
              then <[broker := BrokerStatus.mk true]> (broker_status st)
              else broker_status st
          | Some _ =>
              <[broker := BrokerStatus.mk (1 <=? status)]> (broker_status st)
          end
      | _, _ => broker_status st
      end.
Proof.
  unfold handle_mqtt_message_broker_status.
  destruct (split slash 2 (topic m)) as [|a [|broker [|c [|]]]]; exec; try done.
  destruct (int_of_bytes (payload m)) as [status|e]; exec; try done.
  rewrite Z.geb_leb, Z.ltb_antisym.
  destruct (broker_status st !! broker) as [[on]|] eqn:Hb; exec.
  - destruct (1 <=? status), on; exec; repeat split; try done.
    all: symmetry; by apply insert_id.
  - destruct (1 <=? status); exec; done.
Qed.

Lemma broker_status_step_lookup (m : MQTTMessage) (st : World) (b : string) :
  is_Some (broker_status (world (handle_mqtt_message_broker_status m st)) !! b)
  ↔ is_Some (broker_status st !! b) ∨ announces b m = true.
Proof.
  destruct (broker_status_step m st) as (_ & _ & ->). unfold announces.
  destruct (split slash 2 (topic m)) as [|a [|broker [|c [|]]]];
    try (split; [auto | intros [? | ?]; [done | discriminate]]).
  destruct (int_of_bytes (payload m)) as [status|e];
    try (split; [auto | intros [? | ?]; [done | discriminate]]).
  destruct (String.eqb_spec broker b) as [-> | Hne].
  - destruct (broker_status st !! b) as [bs|] eqn:Hb.
    + rewrite lookup_insert_eq. split; eauto.
    + destruct (1 <=? status).
      * rewrite lookup_insert_eq. split; eauto.
      * rewrite Hb. split; [auto | intros [? | ?]; [done | discriminate]].
  - simpl. destruct (broker_status st !! broker), (1 <=? status);
      rewrite ?lookup_insert_ne by done;
      (split; [auto | intros [? | ?]; [done | discriminate]]).
Qed.

(** C9.  Over any sequence of broker-status messages, a broker has an
    entry afterwards exactly when it had one before or one of the
    messages announced it with a payload of 1 or more: entries are never
    deleted and nothing else creates one.  A single message changes the
    store as follows: for a broker without entry, a payload of 1 or more
    creates the entry, online, and any other payload leaves the store as
    it was; for a broker with an entry, only the flag of that entry is
    set; a message that the callback cannot read changes nothing. *)
Theorem broker_entries (msgs : list MQTTMessage) (st : World) (b : string) :
  let after :=
    foldl (fun w m => world (handle_mqtt_message_broker_status m w)) st msgs in
  (is_Some (broker_status after !! b)
   ↔ is_Some (broker_status st !! b) ∨ existsb (announces b) msgs = true)
  ∧ ∀ m,
      broker_status (world (handle_mqtt_message_broker_status m st))
      = match split slash 2 (topic m), int_of_bytes (payload m) with
        | [_; broker; _], Return status =>
            match broker_status st !! broker with
            | None =>
                if 1 <=? status
                then <[broker := BrokerStatus.mk true]> (broker_status st)
                else broker_status st
            | Some _ =>
                <[broker := BrokerStatus.mk (1 <=? status)]> (broker_status st)
            end
        | _, _ => broker_status st
        end.
Proof.
  split; [| intros m; apply broker_status_step].
  revert st. induction msgs as [|m msgs IH]; intros st; simpl.
  - split; [auto | intros [? | ?]; [done | discriminate]].
  - rewrite IH, broker_status_step_lookup, orb_true_iff. tauto.
Qed.

(** ** Counting the brokers *)

Lemma count_online_list (l : list (string * BrokerStatus.t)) :
  let n := foldr Z.add 0
             ((fun kv => if BrokerStatus.online kv.2 then 1 else 0) <$> l) in
  0 ≤ n ∧ (1 ≤ n ↔ ∃ kv, kv ∈ l ∧ BrokerStatus.online kv.2 = true).
Proof.
  cbv zeta. induction l as [|[k bs] l [IH0 IH1]].
  - simpl. split; [lia |]. split; [lia |].
    intros (kv & H & _). by apply elem_of_nil in H.
  - rewrite fmap_cons. cbn [foldr snd].
    set (n := foldr Z.add 0 _) in *.
    split; [destruct (BrokerStatus.online bs); lia |].
    split.
    + intros H. destruct (BrokerStatus.online bs) eqn:Ho.
      * exists (k, bs). split; [left | done].
      * destruct IH1 as [IH1 _]. destruct IH1 as (kv & Hin & Hkv); [lia |].
        exists kv. split; [by right | done].
    + intros (kv & Hin & Hkv). apply elem_of_cons in Hin as [-> | Hin].
      * simpl in Hkv. rewrite Hkv. lia.
      * assert (1 ≤ n) by (apply IH1; eauto).
        destruct (BrokerStatus.online bs); lia.
Qed.

(** The number of online brokers is the number of entries whose flag is
    set: never negative, and 1 or more exactly when some entry is
    online. *)
Lemma count_online_bounds (b : gmap string BrokerStatus.t) :
  0 ≤ count_online b
  ∧ (1 ≤ count_online b
     ↔ ∃ broker bs, b !! broker = Some bs ∧ BrokerStatus.online bs = true).
Proof.
  destruct (count_online_list (map_to_list b)) as [H0 H1].
  split; [exact H0 |].
  unfold count_online. rewrite H1. split.
  - intros ([k bs] & Hin%elem_of_map_to_list & Ho). eauto.
  - intros (k & bs & Hl & Ho). exists (k, bs). split; [| done].
    by apply elem_of_map_to_list.
Qed.

(** ** The metric that the interpolation writes *)

Lemma peers_update c w d v :
  peers (WorkerMetricsCollection.update c w d CONNECTED_PEERS_METRIC v) w d
  = Some v.
Proof.
  unfold peers, WorkerMetricsCollection.update.
  destruct (WorkerMetricsCollection.get c w) as [wm c']. simpl.
  rewrite lookup_insert_eq. simpl. rewrite lookup_insert_eq. simpl.
  by rewrite lookup_insert_eq.
Qed.

Lemma peers_read c w d :
  default 0 (WorkerMetrics.get_domain_metrics
               (WorkerMetricsCollection.get c w).1 d
             !! CONNECTED_PEERS_METRIC)
  = default 0 (peers c w d).
Proof.
  rewrite get_fst, get_domain_metrics_lookup. unfold peers.
  by destruct (WorkerMetricsCollection.data c !! w).
Qed.

Lemma update_get c w d m v :
  WorkerMetricsCollection.update (WorkerMetricsCollection.get c w).2 w d m v
  = WorkerMetricsCollection.update c w d m v.
Proof.
  unfold WorkerMetricsCollection.update, WorkerMetricsCollection.get.
  destruct (WorkerMetricsCollection.data c !! w) as [wm|] eqn:Hl; simpl.
  - by rewrite Hl.
  - by rewrite lookup_insert_eq.
Qed.

(** ** What the client refuses to publish *)

Lemma has_wildcard_app a b :
  has_wildcard (a +:+ b) = has_wildcard a || has_wildcard b.
Proof.
  unfold has_wildcard. induction a as [|c a IH].
  - by rewrite append_nil_l.
  - rewrite append_cons. cbn [str_chars existsb]. by rewrite IH, orb_assoc.
Qed.

Lemma length_app a b :
  String.length (a +:+ b) = (String.length a + String.length b)%nat.
Proof.
  induction a as [|c a IH].
  - by rewrite append_nil_l.
  - rewrite append_cons. cbn [String.length]. by rewrite IH.
Qed.

Lemma take_class_length cls n s r :
  take_class cls n s = Some r →
  String.length s = (n + String.length r)%nat.
Proof.
  revert s. induction n as [|n IH]; intros s; simpl.
  - by intros [= ->].
  - destruct s as [|c s]; [discriminate |].
    destruct (in_class cls c); [| discriminate].
    intros H. cbn [String.length]. by rewrite (IH _ H).
Qed.

Lemma wg_key_shape_length k :
  wg_key_shape k = true → String.length k = 44%nat.
Proof.
  unfold wg_key_shape.
  destruct (take_class base64_class 42 k) as [r|] eqn:Hk; [| discriminate].
  destruct r as [|c [|e [|]]]; try discriminate.
  intros _. by rewrite (take_class_length _ _ _ _ Hk).
Qed.

(** A key that the pattern accepts has 44 or 45 characters. *)
Lemma accepted_key_length k :
  re_match WG_PUBKEY_PATTERN k = true → (String.length k ≤ 45)%nat.
Proof.
  intros [H | (k0 & -> & H)]%re_match_pubkey.
  - rewrite (wg_key_shape_length _ H). lia.
  - rewrite length_app, (wg_key_shape_length _ H). simpl. lia.
Qed.

(** The publication of an accepted key on [wireguard/<domain>/all] is
    refused exactly for a domain that has a [+] or a [#] in it or is
    longer than 65521 bytes, which with the 14 bytes around it makes a
    topic of more than 65535. *)
Lemma publishable_exchange key d :
  re_match WG_PUBKEY_PATTERN key = true →
  publishable ("wireguard/" +:+ d +:+ "/all") key 0
  = negb (has_wildcard d) && (Z.of_nat (String.length d) <=? 65521).
Proof.
  intros Hk%accepted_key_length. unfold publishable.
  rewrite !has_wildcard_app, !length_app.
  change (has_wildcard "wireguard/") with false.
  change (has_wildcard "/all") with false.
  rewrite orb_false_l, orb_false_r.
  change (String.length "wireguard/") with 10%nat.
  change (String.length "/all") with 4%nat.
  assert ((Z.of_nat (String.length key) <=? 268435455) = true) as ->
    by (apply Z.leb_le; lia).
  change (0 <=? 0) with true. change (0 <=? 2) with true.
  rewrite !andb_true_r.
  assert ((Z.of_nat (10 + (String.length d + 4)) <=? 65535)
          = (Z.of_nat (String.length d) <=? 65521)) as ->.
  { destruct (Z.leb_spec (Z.of_nat (String.length d)) 65521);
      [apply Z.leb_le | apply Z.leb_gt]; lia. }
  reflexivity.
Qed.

Section Handlers.

Variable is_valid_domain : string -> bool.
Variable loads : string -> result json.
Variable repr : json -> string.
Variable int_of_str : string -> result Z.

Local Abbreviation from_dict := (KeyExchange_from_dict is_valid_domain repr).
Local Abbreviation v1 := (wg_api_v1_key_exchange is_valid_domain loads repr).
Local Abbreviation v2 := (wg_api_v2_key_exchange is_valid_domain loads repr).
Local Abbreviation on_data :=
  (handle_mqtt_message_data is_valid_domain loads repr int_of_str).

(** *** Requests *)

(** A request that [KeyExchange.from_dict] accepts is an object whose
    [public_key] is a string that the pattern accepts and whose
    [domain] is configured. *)
Lemma KeyExchange_from_dict_valid msg data :
  from_dict msg = Return data →
  ∃ fields,
    msg = JDict fields
    ∧ dict_get fields "public_key" = JStr (KeyExchange.public_key data)
    ∧ re_match WG_PUBKEY_PATTERN (KeyExchange.public_key data) = true
    ∧ KeyExchange.domain data = str repr (dict_get fields "domain")
    ∧ is_valid_domain (KeyExchange.domain data) = true.
Proof.
  unfold KeyExchange_from_dict. destruct msg as [| | | | |l|fields]; try discriminate.
  simpl. intros H. exists fields.
  destruct (dict_get fields "public_key") as [| | | |k| |]; try discriminate.
  simpl in H. destruct (re_match WG_PUBKEY_PATTERN k) eqn:Hk; [| discriminate].
  simpl in H.
  destruct (is_valid_domain (str repr (dict_get fields "domain"))) eqn:Hd;
    [| discriminate].
  simpl in H. injection H as <-. simpl. auto.
Qed.

(** Conversely, every object with such a key and such a domain is
    accepted. *)
Lemma KeyExchange_from_dict_accepts fields key :
  dict_get fields "public_key" = JStr key →
  re_match WG_PUBKEY_PATTERN key = true →
  is_valid_domain (str repr (dict_get fields "domain")) = true →
  from_dict (JDict fields)
  = Return (KeyExchange.mk key (str repr (dict_get fields "domain"))).
Proof.
  intros Hk Hm Hd. unfold KeyExchange_from_dict. simpl.
  by rewrite Hk, is_valid_wg_pubkey_str, Hm, Hd.
Qed.

(** What version 2 does with an accepted request. *)
Lemma v2_outcome body msg data st :
  loads body = Return msg →
  from_dict msg = Return data →
  publishable ("wireguard/" +:+ KeyExchange.domain data +:+ "/all")
    (KeyExchange.public_key data) 0 = true →
  let d := KeyExchange.domain data in
  let c := worker_metrics st in
  let o := v2 body st in
  let pub := Publish ("wireguard/" +:+ d +:+ "/all")
               (KeyExchange.public_key data) 0 false in
  match WorkerMetricsCollection.get_best_worker c d with
  | (None, _, _) =>
      value o
      = Return (ErrorMessage
                  "no gateway online for this domain, please check the domain value and try again later",
                400)
      ∧ world o = st
      ∧ effects (trace o) = [pub; Select d None]
  | (Some w, _, _) =>
      value o
      = match worker_data st !! (w, d) with
        | None => Return (ErrorMessage "could not get gateway data", 500)
        | Some w_data =>
            Return (Endpoint (WorkerData.external_address w_data)
                             (pretty (WorkerData.port w_data))
                             [WorkerData.link_address w_data]
                             (WorkerData.public_key w_data),
                    200)
        end
      ∧ world o
        = set_worker_metrics
            (WorkerMetricsCollection.update c w d CONNECTED_PEERS_METRIC
               (default 0 (peers c w d) + count_online (broker_status st)))
            st
      ∧ effects (trace o) = [pub; Select d (Some w)]
  end.
Proof.
  intros Hl Hd Hp d c o pub. subst o.
  unfold wg_api_v2_key_exchange, get_json. rewrite Hl, Hd. exec.
  unfold publish. change ("/" +:+ "all") with "/all". rewrite Hp. exec.
  fold d. fold c.
  destruct (WorkerMetricsCollection.get_best_worker c d) as [[[w|] diff] cur];
    exec.
  - rewrite peers_read, update_get.
    destruct (worker_data st !! (w, d)) as [w_data|]; exec; done.
  - done.
Qed.

(** When the client refuses the publication of an accepted request,
    both handlers are left by its [ValueError], after their log line
    and before anything else. *)
Lemma exchange_refused body msg data st :
  loads body = Return msg →
  from_dict msg = Return data →
  publishable ("wireguard/" +:+ KeyExchange.domain data +:+ "/all")
    (KeyExchange.public_key data) 0 = false →
  v1 body st
  = Outcome (Raise (Exn ValueError None)) st
      [Log Info ("wg_api_v1_key_exchange: Domain: "
                 +:+ KeyExchange.domain data +:+ ", Key:"
                 +:+ KeyExchange.public_key data)]
  ∧ v2 body st
    = Outcome (Raise (Exn ValueError None)) st
        [Log Info ("wg_api_v2_key_exchange: Domain: "
                   +:+ KeyExchange.domain data +:+ ", Key:"
                   +:+ KeyExchange.public_key data)].
Proof.
  intros Hl Hd Hp. split.
  - unfold wg_api_v1_key_exchange, get_json. rewrite Hl, Hd. exec.
    unfold publish. change ("/" +:+ "all") with "/all". by rewrite Hp.
  - unfold wg_api_v2_key_exchange, get_json. rewrite Hl, Hd. exec.
    unfold publish. change ("/" +:+ "all") with "/all". by rewrite Hp.
Qed.

(** So version 2 returns from an accepted request only when the client
    has taken the publication. *)
Lemma answered_publishable body msg data st :
  loads body = Return msg →
  from_dict msg = Return data →
  raised (v2 body st) = false →
  publishable ("wireguard/" +:+ KeyExchange.domain data +:+ "/all")
    (KeyExchange.public_key data) 0 = true.
Proof.
  intros Hl Hd Hr.
  destruct (publishable _ _ _) eqn:Hp; [done |].
  destruct (exchange_refused body msg data st Hl Hd Hp) as [_ Hv].
  unfold raised in Hr. by rewrite Hv in Hr.
Qed.

(** C4.  When version 2 serves an accepted request, that is when it
    returns an answer, and the selection answers worker [w], the recorded
    [connected_peers] of [w] for the domain is afterwards the value that
    the handler read (0 without an entry) plus the number of brokers
    counted online. *)
Theorem v2_interpolation body msg data st w diff current :
  loads body = Return msg →
  from_dict msg = Return data →
  raised (v2 body st) = false →
  WorkerMetricsCollection.get_best_worker
    (worker_metrics st) (KeyExchange.domain data) = (Some w, diff, current) →
  peers (worker_metrics (world (v2 body st))) w (KeyExchange.domain data)
  = Some (default 0 (peers (worker_metrics st) w (KeyExchange.domain data))
          + count_online (broker_status st)).
Proof.
  intros Hl Hd Hr Hb.
  pose proof (v2_outcome body msg data st Hl Hd
                (answered_publishable body msg data st Hl Hd Hr)) as H.
  cbv zeta in H. rewrite Hb in H. destruct H as (_ & -> & _).
  apply peers_update.
Qed.

(** The connect callback subscribes and publishes the announcement,
    when the client takes its topic; it does not touch the stores. *)
Lemma connect_leaves_stores hostname url port st :
  world (handle_mqtt_connect hostname url port st) = st
  ∧ (publishable (TOPIC_BROKER_STATUS hostname) "1" 1 = true →
     Publish (TOPIC_BROKER_STATUS hostname) "1" 1 true
     ∈ trace (handle_mqtt_connect hostname url port st)).
Proof.
  unfold handle_mqtt_connect. exec. unfold publish.
  destruct (publishable _ _ _); exec; (split; [done |]); [| done].
  intros _. do 5 right. left.
Qed.

(** C8, as the code has it.  When version 2 reaches the interpolation,
    that is when it returns from an accepted request for which the
    selection answers a worker, the number [n] that it adds is the number
    of entries of the broker liveness store whose flag is set at that
    moment: [n] is never negative, and it is 1 or more exactly when some
    entry is online. *)
Theorem interpolation_count body msg data st w diff current :
  loads body = Return msg →
  from_dict msg = Return data →
  raised (v2 body st) = false →
  WorkerMetricsCollection.get_best_worker
    (worker_metrics st) (KeyExchange.domain data) = (Some w, diff, current) →
  let d := KeyExchange.domain data in
  let n := count_online (broker_status st) in
  world (v2 body st)
  = set_worker_metrics
      (WorkerMetricsCollection.update (worker_metrics st) w d
         CONNECTED_PEERS_METRIC
         (default 0 (peers (worker_metrics st) w d) + n))
      st
  ∧ 0 ≤ n
  ∧ (1 ≤ n ↔ ∃ broker bs,
               broker_status st !! broker = Some bs
               ∧ BrokerStatus.online bs = true).
Proof.
  intros Hl Hd Hr Hb d n.
  pose proof (v2_outcome body msg data st Hl Hd
                (answered_publishable body msg data st Hl Hd Hr)) as H.
  cbv zeta in H. rewrite Hb in H. destruct H as (_ & Hw & _).
  split; [exact Hw | apply count_online_bounds].
Qed.

(** C6, as the code has it.  An accepted request is one with a key that
    the validator accepts and a configured domain.  When the client
    takes the publication on [wireguard/<domain>/all], version 1
    publishes the key there, answers 200 and does nothing else; version
    2 publishes the same message first and only then selects a worker,
    so the key is published whatever the selection and the endpoint
    lookup give, and without a worker the answer is 400.  When the
    client refuses the publication, both handlers are left by its
    [ValueError]: nothing is published, no worker is selected, no store
    changes and there is no answer. *)
Theorem publish_before_select body msg data st :
  loads body = Return msg →
  from_dict msg = Return data →
  let d := KeyExchange.domain data in
  let key := KeyExchange.public_key data in
  let pub := Publish ("wireguard/" +:+ d +:+ "/all") key 0 false in
  let best :=
    (WorkerMetricsCollection.get_best_worker (worker_metrics st) d).1.1 in
  (re_match WG_PUBKEY_PATTERN key = true ∧ is_valid_domain d = true)
  ∧ publishable ("wireguard/" +:+ d +:+ "/all") key 0
    = negb (has_wildcard d) && (Z.of_nat (String.length d) <=? 65521)
  ∧ if publishable ("wireguard/" +:+ d +:+ "/all") key 0 then
      (value (v1 body st) = Return (Message "OK", 200)
       ∧ world (v1 body st) = st
       ∧ effects (trace (v1 body st)) = [pub])
      ∧ effects (trace (v2 body st)) = [pub; Select d best]
      ∧ (best = None →
         value (v2 body st)
         = Return (ErrorMessage
                     "no gateway online for this domain, please check the domain value and try again later",
                   400))
      ∧ (∀ w, best = Some w → worker_data st !! (w, d) = None →
         value (v2 body st)
         = Return (ErrorMessage "could not get gateway data", 500))
    else
      (value (v1 body st) = Raise (Exn ValueError None)
       ∧ world (v1 body st) = st
       ∧ effects (trace (v1 body st)) = [])
      ∧ value (v2 body st) = Raise (Exn ValueError None)
      ∧ world (v2 body st) = st
      ∧ effects (trace (v2 body st)) = [].
Proof.
  intros Hl Hd d key pub best.
  destruct (KeyExchange_from_dict_valid _ _ Hd) as (f & _ & _ & Hk & _ & Hv).
  split; [auto |]. split; [by apply publishable_exchange |].
  destruct (publishable _ _ _) eqn:Hp.
  - split.
    + unfold wg_api_v1_key_exchange, get_json. rewrite Hl, Hd. exec.
      unfold publish. change ("/" +:+ "all") with "/all".
      fold d key. rewrite Hp. exec. done.
    + pose proof (v2_outcome body msg data st Hl Hd Hp) as H. cbv zeta in H.
      subst best. fold d in H.
      destruct (WorkerMetricsCollection.get_best_worker (worker_metrics st) d)
        as [[[w|] diff] cur]; simpl.
      * destruct H as (Hv' & _ & Ht). split; [exact Ht |].
        split; [discriminate |].
        intros w' [= <-] Hw. by rewrite Hv', Hw.
      * destruct H as (Hv' & _ & Ht). split; [exact Ht |]. split; [done |].
        discriminate.
  - destruct (exchange_refused body msg data st Hl Hd Hp) as [-> ->].
    done.
Qed.

(** C10.  When version 2 answers an accepted request with 500, the
    selection had chosen a worker without endpoint record, and what the
    handler did before stays: the recorded [connected_peers] of that
    worker is the value read plus the number of online brokers, and the
    key has been published. *)
Theorem v2_500_keeps_effects body msg data st r :
  loads body = Return msg →
  from_dict msg = Return data →
  value (v2 body st) = Return (r, 500) →
  let d := KeyExchange.domain data in
  ∃ w diff current,
    WorkerMetricsCollection.get_best_worker (worker_metrics st) d
    = (Some w, diff, current)
    ∧ worker_data st !! (w, d) = None
    ∧ r = ErrorMessage "could not get gateway data"
    ∧ peers (worker_metrics (world (v2 body st))) w d
      = Some (default 0 (peers (worker_metrics st) w d)
              + count_online (broker_status st))
    ∧ Publish ("wireguard/" +:+ d +:+ "/all")
        (KeyExchange.public_key data) 0 false ∈ trace (v2 body st)
    ∧ worker_data (world (v2 body st)) = worker_data st
    ∧ broker_status (world (v2 body st)) = broker_status st.
Proof.
  intros Hl Hd Hv d.
  assert (Hp : publishable ("wireguard/" +:+ d +:+ "/all")
                 (KeyExchange.public_key data) 0 = true).
  { apply (answered_publishable body msg data st Hl Hd).
    unfold raised. by rewrite Hv. }
  pose proof (v2_outcome body msg data st Hl Hd Hp) as H. cbv zeta in H.
  fold d in H.
  destruct (WorkerMetricsCollection.get_best_worker (worker_metrics st) d)
    as [[[w|] diff] cur].
  - destruct H as (Hv' & Hw & Ht). exists w, diff, cur.
    rewrite Hv in Hv'.
    destruct (worker_data st !! (w, d)) as [w_data|] eqn:Hwd;
      [discriminate |].
    injection Hv' as ->.
    repeat split; try done.
    + rewrite Hw. apply peers_update.
    + assert (Hin : Publish ("wireguard/" +:+ d +:+ "/all")
                      (KeyExchange.public_key data) 0 false
                    ∈ effects (trace (v2 body st))) by (rewrite Ht; left).
      unfold effects in Hin. apply list_elem_of_In, filter_In in Hin as [Hin _].
      by apply list_elem_of_In.
    + by rewrite Hw.
    + by rewrite Hw.
  - destruct H as (Hv' & _). rewrite Hv in Hv'. discriminate.
Qed.

(** *** Worker data *)

Local Abbreviation WorkerData_of := (WorkerData_from_dict repr int_of_str).

(** [WorkerData.from_dict] never returns: whatever [int] makes of the
    port, the next statement raises. *)
Lemma WorkerData_from_dict_raises msg :
  WorkerData_of msg
  = match msg with
    | JDict fields =>
        match int int_of_str (dict_get fields "Port") with
        | Return _ => Raise (Exn UnboundLocalError None)
        | Raise e => Raise e
        end
    | _ => Raise (Exn AttributeError None)
    end.
Proof.
  unfold WorkerData_from_dict. destruct msg; reflexivity.
Qed.

Lemma on_data_outcome m st :
  let o := on_data m st in
  world o = st ∧ (raised o = false → logged_error o).
Proof.
  unfold handle_mqtt_message_data, raised, logged_error.
  destruct (split slash 3 (topic m)) as [|a [|worker [|domain [|b [|]]]]];
    exec; try done.
  destruct (is_valid_domain domain) eqn:Hd; exec.
  2:{ split; [done | intros _; eexists; left]. }
  destruct (loads (payload m)) as [msg|e]; exec; [| done].
  rewrite WorkerData_from_dict_raises.
  destruct msg as [| | | | |l|fields]; exec;
    try (split; [done | intros _; eexists; left]).
  destruct (int int_of_str (dict_get fields "Port")); exec.
  all: split; [done | intros _; eexists; left].
Qed.

(** C3.  The data callback never stores a record: it leaves every store
    as it was for every message, because [WorkerData.from_dict] raises
    on every document, also on an object with all four fields and a
    valid key, where the exception is [UnboundLocalError] for the
    unbound local [link_address]. *)
Theorem worker_data_never_stored m st fields :
  world (on_data m st) = st
  ∧ raises (WorkerData_of (JDict fields)) = true
  ∧ WorkerData_of (JDict fields)
    = match int int_of_str (dict_get fields "Port") with
      | Return _ => Raise (Exn UnboundLocalError None)
      | Raise e => Raise e
      end.
Proof.
  split; [apply on_data_outcome |].
  rewrite WorkerData_from_dict_raises.
  by destruct (int int_of_str (dict_get fields "Port")).
Qed.

(** *** Malformed payloads *)

Local Abbreviation run_callback :=
  (callback_of is_valid_domain loads repr int_of_str).
Local Abbreviation is_malformed := (malformed loads repr int_of_str).

(** C5, as the code has it.  A callback that receives a payload
    malformed for its topic leaves every store as it was, and it either
    returns after logging an error or is left by an exception; the two
    status callbacks are always left by an exception, with nothing
    logged. *)
Theorem malformed_payload k m st :
  is_malformed k m = true →
  let o := run_callback k m st in
  world o = st
  ∧ (raised o = false → logged_error o)
  ∧ (k = OnWorkerStatus ∨ k = OnBrokerStatus →
     raised o = true ∧ trace o = []).
Proof.
  intros Hm o. subst o.
  assert (Hlog : ∀ (t : list event) text, Log Error text ∈ t →
            raises (Return () : result unit) = false →
            ∃ text', Log Error text' ∈ t) by eauto.
  destruct k; simpl in Hm; simpl.
  - assert (Hk : OnMetrics = OnWorkerStatus ∨ OnMetrics = OnBrokerStatus →
                 ∀ P : Prop, P) by (intros [? | ?]; discriminate).
    unfold handle_mqtt_message_metrics, raised, logged_error.
    destruct (decode (payload m)) as [text|e]; exec;
      [| split; [done | split; [done | intros ?; by apply Hk]]].
    destruct (split slash 3 (topic m))
      as [|a [|domain [|worker [|metric [|]]]]];
      exec; try (split; [done | split; [done | intros ?; by apply Hk]]).
    destruct (is_valid_domain domain); exec.
    + destruct (String.eqb worker "" || String.eqb metric ""); exec.
      * split; [done | split; [| intros ?; by apply Hk]].
        eapply Hlog. right. left.
      * destruct (int_of_bytes (payload m)); [discriminate |]. exec.
        split; [done | split; [done | intros ?; by apply Hk]].
    + split; [done | split; [| intros ?; by apply Hk]].
      eapply Hlog. right. left.
  - unfold handle_mqtt_message_worker_status, raised, logged_error.
    destruct (split slash 2 (topic m)) as [|a [|worker [|c [|]]]];
      exec; try done.
    destruct (int_of_bytes (payload m)); [discriminate |]. exec. done.
  - destruct (on_data_outcome m st) as (Hw & Hl).
    split; [done | split; [done | intros [? | ?]; discriminate]].
  - unfold handle_mqtt_message_broker_status, raised, logged_error.
    destruct (split slash 2 (topic m)) as [|a [|broker [|c [|]]]];
      exec; try done.
    destruct (int_of_bytes (payload m)); [discriminate |]. exec. done.
Qed.

End Handlers.

(** ** The theorems at concrete inputs *)

Lemma v2_interpolation_witness :
  loads_documents request_text = Return example_request
  ∧ KeyExchange_from_dict ffda repr_plain example_request
    = Return example_exchange
  ∧ raised (wg_api_v2_key_exchange ffda loads_documents repr_plain
              request_text example_state) = false
  ∧ WorkerMetricsCollection.get_best_worker
      (worker_metrics example_state) "ffda" = (Some "worker", 0, 10)
  ∧ peers (worker_metrics
             (world (wg_api_v2_key_exchange ffda loads_documents repr_plain
                       request_text example_state)))
      "worker" "ffda"
    = Some (default 0 (peers (worker_metrics example_state) "worker" "ffda")
            + count_online (broker_status example_state)).
Proof.
  assert (H1 : loads_documents request_text = Return example_request)
    by (vm_compute; reflexivity).
  assert (H2 : KeyExchange_from_dict ffda repr_plain example_request
               = Return example_exchange) by (vm_compute; reflexivity).
  assert (Hr : raised (wg_api_v2_key_exchange ffda loads_documents repr_plain
                         request_text example_state) = false)
    by (vm_compute; reflexivity).
  assert (H3 : WorkerMetricsCollection.get_best_worker
                 (worker_metrics example_state) "ffda"
               = (Some "worker", 0, 10)) by (vm_compute; reflexivity).
  exact (conj H1 (conj H2 (conj Hr (conj H3
           (v2_interpolation ffda loads_documents repr_plain request_text
              example_request example_exchange example_state "worker" 0 10
              H1 H2 Hr H3))))).
Defined.

Lemma interpolation_count_witness :
  loads_documents request_text = Return example_request
  ∧ KeyExchange_from_dict ffda repr_plain example_request
    = Return example_exchange
  ∧ raised (wg_api_v2_key_exchange ffda loads_documents repr_plain
              request_text early_state) = false
  ∧ WorkerMetricsCollection.get_best_worker
      (worker_metrics early_state) "ffda" = (Some "worker", 0, 10)
  ∧ 0 ≤ count_online (broker_status early_state).
Proof.
  assert (H1 : loads_documents request_text = Return example_request)
    by (vm_compute; reflexivity).
  assert (H2 : KeyExchange_from_dict ffda repr_plain example_request
               = Return example_exchange) by (vm_compute; reflexivity).
  assert (Hr : raised (wg_api_v2_key_exchange ffda loads_documents repr_plain
                         request_text early_state) = false)
    by (vm_compute; reflexivity).
  assert (H3 : WorkerMetricsCollection.get_best_worker
                 (worker_metrics early_state) "ffda"
               = (Some "worker", 0, 10)) by (vm_compute; reflexivity).
  exact (conj H1 (conj H2 (conj Hr (conj H3
           (proj1 (proj2
              (interpolation_count ffda loads_documents repr_plain
                 request_text example_request example_exchange early_state
                 "worker" 0 10 H1 H2 Hr H3))))))).
Defined.

Lemma publish_before_select_witness :
  loads_documents request_text = Return example_request
  ∧ KeyExchange_from_dict ffda repr_plain example_request
    = Return example_exchange
  ∧ effects (trace (wg_api_v2_key_exchange ffda loads_documents repr_plain
                      request_text initial))
    = [Publish "wireguard/ffda/all" key44 0 false; Select "ffda" None]
  ∧ value (wg_api_v1_key_exchange ffda loads_documents repr_plain
             request_text initial)
    = Return (Message "OK", 200).
Proof.
  assert (H1 : loads_documents request_text = Return example_request)
    by (vm_compute; reflexivity).
  assert (H2 : KeyExchange_from_dict ffda repr_plain example_request
               = Return example_exchange) by (vm_compute; reflexivity).
  pose proof (publish_before_select ffda loads_documents repr_plain
                request_text example_request example_exchange initial H1 H2)
    as (_ & _ & H).
  cbv zeta in H.
  change (publishable ("wireguard/" +:+ KeyExchange.domain example_exchange
                       +:+ "/all")
            (KeyExchange.public_key example_exchange) 0)
    with true in H.
  destruct H as ((Hv1 & _) & Hv2 & _).
  exact (conj H1 (conj H2 (conj Hv2 Hv1))).
Defined.

Lemma v2_500_keeps_effects_witness :
  loads_documents request_text = Return example_request
  ∧ KeyExchange_from_dict ffda repr_plain example_request
    = Return example_exchange
  ∧ value (wg_api_v2_key_exchange ffda loads_documents repr_plain
             request_text example_state)
    = Return (ErrorMessage "could not get gateway data", 500)
  ∧ ∃ w diff current,
      WorkerMetricsCollection.get_best_worker
        (worker_metrics example_state) "ffda" = (Some w, diff, current)
      ∧ peers (worker_metrics
                 (world (wg_api_v2_key_exchange ffda loads_documents
                           repr_plain request_text example_state)))
          w "ffda"
        = Some (default 0 (peers (worker_metrics example_state) w "ffda")
                + count_online (broker_status example_state)).
Proof.
  assert (H1 : loads_documents request_text = Return example_request)
    by (vm_compute; reflexivity).
  assert (H2 : KeyExchange_from_dict ffda repr_plain example_request
               = Return example_exchange) by (vm_compute; reflexivity).
  assert (H3 : value (wg_api_v2_key_exchange ffda loads_documents repr_plain
                        request_text example_state)
               = Return (ErrorMessage "could not get gateway data", 500))
    by (vm_compute; reflexivity).
  destruct (v2_500_keeps_effects ffda loads_documents repr_plain request_text
              example_request example_exchange example_state _ H1 H2 H3)
    as (w & diff & current & Hb & _ & _ & Hp & _).
  exact (conj H1 (conj H2 (conj H3
           (ex_intro _ w (ex_intro _ diff (ex_intro _ current (conj Hb Hp))))))).
Defined.

Lemma malformed_payload_witness :
  malformed loads_documents repr_plain int_of_bytes OnWorkerStatus
    (mkMessage (TOPIC_WORKER_STATUS "gw1") "abc") = true
  ∧ world (handle_mqtt_message_worker_status
             (mkMessage (TOPIC_WORKER_STATUS "gw1") "abc") initial) = initial
  ∧ raised (handle_mqtt_message_worker_status
              (mkMessage (TOPIC_WORKER_STATUS "gw1") "abc") initial) = true.
Proof.
  assert (H : malformed loads_documents repr_plain int_of_bytes OnWorkerStatus
                (mkMessage (TOPIC_WORKER_STATUS "gw1") "abc") = true)
    by (vm_compute; reflexivity).
  destruct (malformed_payload ffda loads_documents repr_plain int_of_bytes
              OnWorkerStatus (mkMessage (TOPIC_WORKER_STATUS "gw1") "abc")
              initial H) as (Hw & _ & Hr).
  exact (conj H (conj Hw (proj1 (Hr (or_introl eq_refl))))).
Defined.

(** C5, as the spec states it, fails: a worker-status message whose
    payload is not an integer makes the callback raise [ValueError], the
    exception leaves the router, and nothing is logged. *)
Lemma status_payload_raises :
  let o := on_message ffda loads_documents repr_plain int_of_bytes
             (mkMessage (TOPIC_WORKER_STATUS "gw1") "abc") initial in
  value o = Raise (Exn ValueError None) ∧ trace o = [].
Proof. vm_compute. split; reflexivity. Qed.

(** C6, as the spec states it, fails: with a domain [ff+da] configured, a
    request for it with a valid key is accepted by [KeyExchange.from_dict],
    and the client refuses the topic [wireguard/ff+da/all]: both handlers
    are left by its [ValueError], version 1 does not answer 200, and
    nothing is published. *)
Lemma wildcard_domain_not_published :
  KeyExchange_from_dict ffplus repr_plain (JDict wildcard_fields)
  = Return (KeyExchange.mk key44 "ff+da")
  ∧ (let o := wg_api_v1_key_exchange ffplus loads_wildcard repr_plain
                wildcard_text initial in
     value o = Raise (Exn ValueError None) ∧ effects (trace o) = [])
  ∧ (let o := wg_api_v2_key_exchange ffplus loads_wildcard repr_plain
                wildcard_text initial in
     value o = Raise (Exn ValueError None) ∧ effects (trace o) = []).
Proof. vm_compute. repeat split; reflexivity. Qed.

(** C8, as the spec states it, fails: after the connect callback and the
    status and metrics messages of a worker, and before any broker-status
    message, version 2 reaches the interpolation with no broker counted
    and adds 0 to the metric. *)
Lemma no_broker_counted :
  WorkerMetricsCollection.get_best_worker (worker_metrics early_state) "ffda"
  = (Some "worker", 0, 10)
  ∧ count_online (broker_status early_state) = 0
  ∧ peers (worker_metrics
             (world (wg_api_v2_key_exchange ffda loads_documents repr_plain
                       request_text early_state)))
      "worker" "ffda" = Some 10.
Proof. vm_compute. repeat split; reflexivity. Qed.

(** ** The scenarios of the spec *)

(** The data message of the first scenario, on the spec's topic: the
    callback reads the third level, [gw1], as the domain and drops the
    message. *)
Example worker_data_spec_topic :
  let o := on_message ffda loads_documents repr_plain int_of_bytes
             (mkMessage (TOPIC_WORKER_WG_DATA "gw1" "ffda") endpoint_text)
             example_state in
  value o = Return tt
  ∧ world o = example_state
  ∧ trace o = [Log Error "Domain gw1 not in configured domains."].
Proof. vm_compute. repeat split; reflexivity. Qed.

(** The same document on a topic whose third level is the configured
    domain: the document has all four fields and a valid key, and the
    callback logs it as invalid and stores nothing. *)
Example worker_data_dropped :
  let o := handle_mqtt_message_data ffda loads_documents repr_plain
             int_of_bytes
             (mkMessage "wireguard-worker/gw1/ffda/data" endpoint_text)
             initial in
  value o = Return tt
  ∧ worker_data (world o) = ∅
  ∧ trace o = [Log Error "Invalid worker data received for gw1/ffda: ..."].
Proof. vm_compute. repeat split; reflexivity. Qed.

(** A broker is created by its first online message, kept by an offline
    one, and an offline message for an unknown broker changes nothing. *)
Example broker_status_sequence :
  let handle w m := world (handle_mqtt_message_broker_status m w) in
  let up := mkMessage "wireguard-broker/b1/status" "1" in
  let down := mkMessage "wireguard-broker/b1/status" "0" in
  handle initial down = initial
  ∧ broker_status (handle initial up) !! "b1" = Some (BrokerStatus.mk true)
  ∧ broker_status (foldl handle initial [up; down]) !! "b1"
    = Some (BrokerStatus.mk false).
Proof. vm_compute. repeat split; reflexivity. Qed.


(** * Further properties *)

(** ** Joining host and port *)

Lemma str_chars_app (a b : string) :
  str_chars (a +:+ b) = str_chars a ++ str_chars b.
Proof.
  induction a as [|c a IH]; [reflexivity |].
  rewrite append_cons. simpl. by rewrite IH.
Qed.

Lemma str_chars_inj (a b : string) : str_chars a = str_chars b → a = b.
Proof.
  revert b. induction a as [|c a IH]; intros [|d b] H; simpl in H;
    try discriminate; [reflexivity |].
  injection H as -> H. f_equal. by apply IH.
Qed.

Lemma find_from_spec (c : ascii) (i : Z) (s : string) :
  (find_from c i s = -1 ∧ c ∉ str_chars s)
  ∨ (i ≤ find_from c i s ∧ c ∈ str_chars s).
Proof.
  revert i. induction s as [|x s IH]; intros i; simpl.
  - left. split; [reflexivity | apply not_elem_of_nil].
  - destruct (Ascii.eqb_spec x c) as [-> | Hne].
    + right. split; [lia | left].
    + destruct (IH (i + 1)) as [[-> Hn] | [Hle Hin]].
      * left. split; [reflexivity |]. rewrite not_elem_of_cons. split; auto.
      * right. split; [lia | by right].
Qed.

Lemma no_colon_chars (s : string) :
  no_colon s = true ↔ ":"%char ∉ str_chars s.
Proof.
  unfold no_colon. induction (str_chars s) as [|x l IH]; simpl.
  - split; [intros _; apply not_elem_of_nil | done].
  - rewrite andb_true_iff, IH, not_elem_of_cons, negb_true_iff.
    destruct (Ascii.eqb_spec x ":"%char); split; intros [? ?]; split;
      congruence.
Qed.

(** [host.find(":") >= 0] tells whether the host contains a colon. *)
Lemma find_colon (s : string) :
  (find s ":"%char >=? 0) = negb (no_colon s).
Proof.
  unfold find. rewrite Z.geb_leb.
  destruct (find_from_spec ":"%char 0 s) as [[-> Hnot] | [Hle Hin]].
  - apply no_colon_chars in Hnot. by rewrite Hnot.
  - destruct (no_colon s) eqn:E.
    + exfalso. by apply no_colon_chars in Hin.
    + simpl. by apply Z.leb_le.
Qed.

(** Two lists cut at the last occurrence of [c] agree part by part. *)
Lemma last_cut {A} (c : A) (l1 l2 p1 p2 : list A) :
  c ∉ p1 → c ∉ p2 → l1 ++ c :: p1 = l2 ++ c :: p2 → l1 = l2 ∧ p1 = p2.
Proof.
  intros H1 H2. revert l2. induction l1 as [|x l1 IH]; intros [|y l2] E;
    simpl in E.
  - by injection E as ->.
  - injection E as -> ->. exfalso. apply H1.
    apply elem_of_app. right. left.
  - injection E as -> <-. exfalso. apply H2.
    apply elem_of_app. right. left.
  - injection E as -> E. destruct (IH _ E) as [-> ->]. done.
Qed.

(** X1.  [join_host_port] loses nothing when the ports contain no colon:
    two results are equal only for the same host and the same port,
    whether the hosts are bracketed or not. *)
Theorem join_host_port_inj (host port host' port' : string) :
  no_colon port = true → no_colon port' = true →
  join_host_port host port = join_host_port host' port' →
  host = host' ∧ port = port'.
Proof.
  intros Hp Hp' E. apply no_colon_chars in Hp, Hp'.
  apply (f_equal str_chars) in E. unfold join_host_port in E.
  rewrite !find_colon in E.
  assert (Hcut : ∀ a b : string,
            str_chars (a +:+ ":" +:+ b) = str_chars a ++ ":"%char :: str_chars b)
    by (intros; rewrite str_chars_app; reflexivity).
  assert (Hbr : ∀ a b : string,
            str_chars ("[" +:+ a +:+ "]:" +:+ b)
            = ("["%char :: str_chars a ++ ["]"%char]) ++ ":"%char :: str_chars b).
  { intros a b.
    change ("[" +:+ a +:+ "]:" +:+ b) with (String "[" (a +:+ "]:" +:+ b)).
    change (str_chars (String "[" (a +:+ "]:" +:+ b)))
      with ("["%char :: str_chars (a +:+ "]:" +:+ b)).
    rewrite str_chars_app. simpl. rewrite <- app_assoc. reflexivity. }
  destruct (no_colon host) eqn:Hh, (no_colon host') eqn:Hh'; cbn [negb] in E;
    rewrite ?Hcut, ?Hbr in E; apply last_cut in E as [E1 E2]; try done.
  - split; by apply str_chars_inj.
  - exfalso. apply no_colon_chars in Hh. apply Hh. rewrite E1.
    assert (Hin : ":"%char ∈ str_chars host').
    { destruct (find_from_spec ":"%char 0 host') as [[_ Hn] | [_ Hin]];
        [| done].
      apply no_colon_chars in Hn. congruence. }
    right. apply elem_of_app. by left.
  - exfalso. apply no_colon_chars in Hh'. apply Hh'. rewrite <- E1.
    assert (Hin : ":"%char ∈ str_chars host).
    { destruct (find_from_spec ":"%char 0 host) as [[_ Hn] | [_ Hin]];
        [| done].
      apply no_colon_chars in Hn. congruence. }
    right. apply elem_of_app. by left.
  - injection E1 as E1. apply app_inv_tail in E1.
    split; by apply str_chars_inj.
Qed.


(** ** Counting over a store *)

Lemma sum_permutation (l l' : list Z) :
  l ≡ₚ l' → foldr Z.add 0 l = foldr Z.add 0 l'.
Proof. induction 1; simpl; lia. Qed.

Lemma tally_insert_fresh {V} (f : V → Z) (m : gmap string V) k v :
  m !! k = None → tally f (<[k := v]> m) = f v + tally f m.
Proof.
  intros H. unfold tally.
  rewrite (sum_permutation _ ((λ kv, f kv.2) <$> ((k, v) :: map_to_list m))).
  - reflexivity.
  - apply fmap_Permutation. by apply map_to_list_insert.
Qed.

Lemma tally_insert {V} (f : V → Z) (m : gmap string V) k v :
  tally f (<[k := v]> m)
  = tally f m - match m !! k with Some x => f x | None => 0 end + f v.
Proof.
  destruct (m !! k) as [x|] eqn:H.
  - rewrite <- (insert_delete_eq m k v).
    rewrite <- (insert_delete_id m k x H) at 2.
    rewrite !tally_insert_fresh by apply lookup_delete_eq. lia.
  - rewrite tally_insert_fresh by done. lia.
Qed.

Lemma tally_flag {V} (p : V → bool) (m : gmap string V) :
  0 ≤ tally (λ v, flag (p v)) m
  ∧ (tally (λ v, flag (p v)) m = 0 ↔ ∀ k v, m !! k = Some v → p v = false).
Proof.
  unfold tally.
  assert (H : ∀ l : list (string * V),
            0 ≤ foldr Z.add 0 ((λ kv, flag (p kv.2)) <$> l)
            ∧ (foldr Z.add 0 ((λ kv, flag (p kv.2)) <$> l) = 0
               ↔ ∀ kv, kv ∈ l → p kv.2 = false)).
  { induction l as [|[k v] l [IH0 IH1]].
    - simpl. split; [lia |]. split; [| done].
      intros _ kv Hin. by apply elem_of_nil in Hin.
    - rewrite fmap_cons. cbn [foldr snd].
      set (n := foldr Z.add 0 _) in *.
      change (flag (p v)) with (if p v then 1 else 0).
      split; [destruct (p v); lia |]. split.
      + intros Hs kv Hin. apply elem_of_cons in Hin as [-> | Hin].
        * simpl. destruct (p v); [lia | done].
        * apply IH1; [destruct (p v); lia | done].
      + intros Hall. pose proof (Hall (k, v) ltac:(left)) as Hv.
        simpl in Hv. rewrite Hv.
        assert (n = 0) by (apply IH1; intros kv Hin; apply Hall; by right).
        lia. }
  destruct (H (map_to_list m)) as [H0 H1]. split; [exact H0 |].
  rewrite H1. split.
  - intros Hall k v Hl. apply (Hall (k, v)). by apply elem_of_map_to_list.
  - intros Hall [k v] Hin. apply (Hall k v). by apply elem_of_map_to_list.
Qed.

Lemma count_online_tally b :
  count_online b = tally (λ bs, flag (BrokerStatus.online bs)) b.
Proof. reflexivity. Qed.

Lemma count_online_workers_tally c :
  count_online_workers c
  = tally (λ wm, flag (WorkerMetrics.is_online wm))
      (WorkerMetricsCollection.data c).
Proof. reflexivity. Qed.


Section KeyExchangeFacts.

Variable is_valid_domain : string -> bool.
Variable loads : string -> result json.
Variable repr : json -> string.

Local Abbreviation from_dict := (KeyExchange_from_dict is_valid_domain repr).
Local Abbreviation parse := (parse_request is_valid_domain loads repr).
Local Abbreviation v1 := (wg_api_v1_key_exchange is_valid_domain loads repr).
Local Abbreviation v2 := (wg_api_v2_key_exchange is_valid_domain loads repr).

Lemma parse_request_inv body data :
  parse body = Return data →
  ∃ msg, loads body = Return msg ∧ from_dict msg = Return data.
Proof.
  unfold parse_request, get_json.
  destruct (loads body) as [msg|e]; [eauto | discriminate].
Qed.

Lemma v1_unfold body st :
  v1 body st
  = match parse body with
    | Raise ex => Outcome (Return (ErrorOf ex, 400)) st []
    | Return data =>
        let log :=
          Log Info ("wg_api_v1_key_exchange: Domain: "
                    +:+ KeyExchange.domain data +:+ ", Key:"
                    +:+ KeyExchange.public_key data) in
        let t := "wireguard/" +:+ KeyExchange.domain data +:+ "/all" in
        if publishable t (KeyExchange.public_key data) 0 then
          Outcome (Return (Message "OK", 200)) st
            [log; Publish t (KeyExchange.public_key data) 0 false]
        else Outcome (Raise (Exn ValueError None)) st [log]
    end.
Proof.
  unfold wg_api_v1_key_exchange, parse_request.
  destruct (get_json loads body) as [msg|e]; [| reflexivity].
  destruct (from_dict msg) as [data|e]; [| reflexivity].
  exec. unfold publish. change ("/" +:+ "all") with "/all". cbv zeta.
  by destruct (publishable _ _ _).
Qed.

Lemma v1_world body st : world (v1 body st) = st.
Proof.
  rewrite v1_unfold. destruct (parse body) as [data|ex]; [| done].
  cbv zeta. by destruct (publishable _ _ _).
Qed.

Lemma v2_rejected body st ex :
  parse body = Raise ex →
  v2 body st = Outcome (Return (ErrorOf ex, 400)) st [].
Proof.
  unfold wg_api_v2_key_exchange, parse_request.
  destruct (get_json loads body) as [msg|e]; [| by intros [= ->]].
  destruct (from_dict msg); [discriminate | by intros [= ->]].
Qed.

(** X2.  [KeyExchange.from_dict] returns exactly for an object whose
    [public_key] is a string that the pattern accepts and whose [domain],
    passed through [str], is configured; the result holds that key and
    that domain. *)
Theorem KeyExchange_from_dict_iff msg data :
  from_dict msg = Return data
  ↔ ∃ fields,
      msg = JDict fields
      ∧ dict_get fields "public_key" = JStr (KeyExchange.public_key data)
      ∧ re_match WG_PUBKEY_PATTERN (KeyExchange.public_key data) = true
      ∧ KeyExchange.domain data = str repr (dict_get fields "domain")
      ∧ is_valid_domain (KeyExchange.domain data) = true.
Proof.
  split; [apply KeyExchange_from_dict_valid |].
  intros (fields & -> & Hk & Hm & Hd & Hv). destruct data as [k d].
  simpl in *. subst d.
  by rewrite (KeyExchange_from_dict_accepts _ _ _ _ Hk Hm Hv).
Qed.

(** X3.  The key is checked before the domain: a request whose key the
    pattern rejects is answered by both handlers with 400 and the key's
    message, whatever its domain; nothing is logged or published and no
    store changes. *)
Theorem invalid_key_first body fields k st :
  loads body = Return (JDict fields) →
  dict_get fields "public_key" = JStr k →
  re_match WG_PUBKEY_PATTERN k = false →
  let answer :=
    Outcome
      (Return (ErrorOf (Exn ValueError
                          (Some ("Not a valid Wireguard public key: "
                                 +:+ k +:+ "."))),
               400))
      st [] in
  v1 body st = answer ∧ v2 body st = answer.
Proof.
  intros Hl Hk Hm answer.
  assert (Hp : parse body
               = Raise (Exn ValueError
                          (Some ("Not a valid Wireguard public key: "
                                 +:+ k +:+ ".")))).
  { unfold parse_request, get_json, KeyExchange_from_dict.
    rewrite Hl. simpl. by rewrite Hk, is_valid_wg_pubkey_str, Hm. }
  split; [by rewrite v1_unfold, Hp | by apply v2_rejected].
Qed.

(** X4.  A request with a valid key and no [domain] is read as a request
    for the domain named [None]: it is accepted if that name is
    configured and rejected with the domain message for [None]
    otherwise. *)
Theorem missing_domain_is_None body fields k :
  loads body = Return (JDict fields) →
  dict_get fields "public_key" = JStr k →
  re_match WG_PUBKEY_PATTERN k = true →
  dict_get fields "domain" = JNull →
  parse body
  = if is_valid_domain "None" then Return (KeyExchange.mk k "None")
    else Raise (Exn ValueError
                  (Some "Domain None not in configured domains.")).
Proof.
  intros Hl Hk Hm Hd.
  unfold parse_request, get_json, KeyExchange_from_dict.
  rewrite Hl. simpl. rewrite Hk, is_valid_wg_pubkey_str, Hm, Hd. simpl.
  by destruct (is_valid_domain "None").
Qed.

(** X5.  A request that [get_json] or [KeyExchange.from_dict] rejects is
    answered by both handlers with 400 and the text of the exception;
    nothing is logged or published and no store changes. *)
Theorem rejected_request_no_effect body ex st :
  parse_request is_valid_domain loads repr body = Raise ex →
  wg_api_v1_key_exchange is_valid_domain loads repr body st
  = Outcome (Return (ErrorOf ex, 400)) st []
  ∧ wg_api_v2_key_exchange is_valid_domain loads repr body st
    = Outcome (Return (ErrorOf ex, 400)) st [].
Proof.
  intros Hp. split; [by rewrite v1_unfold, Hp | by apply v2_rejected].
Qed.

Lemma v2_refused body data st :
  parse body = Return data →
  publishable ("wireguard/" +:+ KeyExchange.domain data +:+ "/all")
    (KeyExchange.public_key data) 0 = false →
  v2 body st
  = Outcome (Raise (Exn ValueError None)) st
      [Log Info ("wg_api_v2_key_exchange: Domain: "
                 +:+ KeyExchange.domain data +:+ ", Key:"
                 +:+ KeyExchange.public_key data)].
Proof.
  intros Hp Hn. destruct (parse_request_inv _ _ Hp) as (msg & Hl & Hd).
  exact (proj2 (exchange_refused is_valid_domain loads repr body msg data st
                  Hl Hd Hn)).
Qed.

Lemma v2_accepted body data st :
  parse body = Return data →
  publishable ("wireguard/" +:+ KeyExchange.domain data +:+ "/all")
    (KeyExchange.public_key data) 0 = true →
  let d := KeyExchange.domain data in
  let c := worker_metrics st in
  let pub := Publish ("wireguard/" +:+ d +:+ "/all")
               (KeyExchange.public_key data) 0 false in
  match WorkerMetricsCollection.get_best_worker c d with
  | (None, _, _) =>
      code (v2 body st) = Some 400
      ∧ world (v2 body st) = st
      ∧ effects (trace (v2 body st)) = [pub; Select d None]
  | (Some w, _, _) =>
      value (v2 body st)
      = match worker_data st !! (w, d) with
        | None => Return (ErrorMessage "could not get gateway data", 500)
        | Some w_data =>
            Return (Endpoint (WorkerData.external_address w_data)
                             (pretty (WorkerData.port w_data))
                             [WorkerData.link_address w_data]
                             (WorkerData.public_key w_data),
                    200)
        end
      ∧ world (v2 body st)
        = set_worker_metrics
            (WorkerMetricsCollection.update c w d CONNECTED_PEERS_METRIC
               (default 0 (peers c w d) + count_online (broker_status st)))
            st
      ∧ effects (trace (v2 body st)) = [pub; Select d (Some w)]
  end.
Proof.
  intros Hp Hy d c pub.
  destruct (parse_request_inv _ _ Hp) as (msg & Hl & Hd).
  pose proof (v2_outcome is_valid_domain loads repr body msg data st Hl Hd Hy)
    as H. cbv zeta in H. fold d c pub in H.
  destruct (WorkerMetricsCollection.get_best_worker c d) as [[[w|] ?] ?];
    [exact H |].
  destruct H as (Hv & ? & ?). unfold code. rewrite Hv. done.
Qed.

(** X6.  What the key-exchange handlers answer.  They are left by an
    exception exactly for a request that is accepted and whose
    publication the client refuses, and the exception is then the
    client's [ValueError], with no store changed.  In every other
    case version 1 answers 400 for a rejected request and 200 for an
    accepted one, and version 2 answers 200, 400 or 500, with 400 for
    every rejected request.  Whatever happens, version 1 changes no
    store and version 2 never touches the endpoint store or the broker
    store. *)
Theorem key_exchange_codes body st :
  (if refused is_valid_domain loads repr body then
     value (v1 body st) = Raise (Exn ValueError None)
     ∧ value (v2 body st) = Raise (Exn ValueError None)
     ∧ world (v2 body st) = st
   else
     code (v1 body st) = Some (if raises (parse body) then 400 else 200)
     ∧ (code (v2 body st) = Some 200 ∨ code (v2 body st) = Some 400
        ∨ code (v2 body st) = Some 500)
     ∧ (raises (parse body) = true → code (v2 body st) = Some 400))
  ∧ world (v1 body st) = st
  ∧ worker_data (world (v2 body st)) = worker_data st
  ∧ broker_status (world (v2 body st)) = broker_status st.
Proof.
  split; [| split; [apply v1_world |]].
  - unfold refused. rewrite v1_unfold.
    destruct (parse body) as [data|ex] eqn:Hp.
    + cbv zeta. destruct (publishable _ _ _) eqn:Hy; cbn [negb].
      * split; [done |]. split; [| discriminate].
        pose proof (v2_accepted body data st Hp Hy) as H. cbv zeta in H.
        destruct (WorkerMetricsCollection.get_best_worker _ _)
          as [[[w|] ?] ?].
        -- destruct H as (Hv & _). unfold code. rewrite Hv.
           destruct (worker_data st !! _); simpl; auto.
        -- destruct H as (Hv & _). auto.
      * by rewrite (v2_refused body data st Hp Hy).
    + rewrite (v2_rejected _ st _ Hp). unfold code. simpl. auto.
  - destruct (parse body) as [data|ex] eqn:Hp.
    + destruct (publishable
                  ("wireguard/" +:+ KeyExchange.domain data +:+ "/all")
                  (KeyExchange.public_key data) 0) eqn:Hy.
      * pose proof (v2_accepted body data st Hp Hy) as H. cbv zeta in H.
        destruct (WorkerMetricsCollection.get_best_worker _ _)
          as [[[w|] ?] ?]; destruct H as (_ & -> & _); done.
      * by rewrite (v2_refused body data st Hp Hy).
    + by rewrite (v2_rejected _ st _ Hp).
Qed.

(** X7.  Whatever the request, the handlers publish only validated keys:
    every publication goes to [wireguard/<domain>/all] for a configured
    domain and carries a key that the pattern accepts. *)
Theorem published_keys_validated body st :
  Forall (validated is_valid_domain) (trace (v1 body st))
  ∧ Forall (validated is_valid_domain) (trace (v2 body st)).
Proof.
  assert (Hpub : ∀ data, parse body = Return data →
            validated is_valid_domain
              (Publish ("wireguard/" +:+ KeyExchange.domain data +:+ "/all")
                 (KeyExchange.public_key data) 0 false)).
  { intros data Hp. destruct (parse_request_inv _ _ Hp) as (msg & _ & Hd).
    apply KeyExchange_from_dict_valid in Hd as (f & _ & _ & Hm & _ & Hv).
    simpl. eauto. }
  split.
  - rewrite v1_unfold. destruct (parse body) as [data|ex] eqn:Hp.
    + cbv zeta. destruct (publishable _ _ _); simpl.
      * repeat constructor. by apply Hpub.
      * by repeat constructor.
    + constructor.
  - destruct (parse body) as [data|ex] eqn:Hp.
    + destruct (publishable
                  ("wireguard/" +:+ KeyExchange.domain data +:+ "/all")
                  (KeyExchange.public_key data) 0) eqn:Hy;
        [| rewrite (v2_refused body data st Hp Hy); by repeat constructor].
      assert (Hnl : ∀ e, e ∈ trace (v2 body st) → is_log e = false →
                e ∈ effects (trace (v2 body st))).
      { intros e He Hl. unfold effects. apply list_elem_of_In, filter_In.
        split; [by apply list_elem_of_In | by rewrite Hl]. }
      apply Forall_forall. intros e He.
      destruct (is_log e) eqn:Hl; [by destruct e |].
      specialize (Hnl e He Hl).
      pose proof (v2_accepted body data st Hp Hy) as H. cbv zeta in H.
      destruct (WorkerMetricsCollection.get_best_worker _ _) as [[[w|] ?] ?];
        destruct H as (_ & _ & Ht); rewrite Ht in Hnl;
        apply elem_of_cons in Hnl as [-> | Hnl]; try (by apply Hpub);
        apply list_elem_of_singleton in Hnl as ->; exact I.
    + rewrite (v2_rejected _ st _ Hp). constructor.
Qed.

(** X8.  Version 2 answers 200 exactly when the request is accepted,
    the client takes the publication, the selection returns a worker
    and the endpoint store has a record for that worker and the domain;
    the answer is then the record's address, its port as decimal text,
    its link address as the only allowed IP, and its public key. *)
Theorem v2_answers_endpoint body st r :
  value (v2 body st) = Return (r, 200)
  ↔ ∃ data w diff current w_data,
      parse body = Return data
      ∧ publishable ("wireguard/" +:+ KeyExchange.domain data +:+ "/all")
          (KeyExchange.public_key data) 0 = true
      ∧ WorkerMetricsCollection.get_best_worker
          (worker_metrics st) (KeyExchange.domain data)
        = (Some w, diff, current)
      ∧ worker_data st !! (w, KeyExchange.domain data) = Some w_data
      ∧ r = Endpoint (WorkerData.external_address w_data)
                     (pretty (WorkerData.port w_data))
                     [WorkerData.link_address w_data]
                     (WorkerData.public_key w_data).
Proof.
  split.
  - intros Hr. destruct (parse body) as [data|ex] eqn:Hp.
    + destruct (publishable
                  ("wireguard/" +:+ KeyExchange.domain data +:+ "/all")
                  (KeyExchange.public_key data) 0) eqn:Hy;
        [| rewrite (v2_refused body data st Hp Hy) in Hr; discriminate].
      pose proof (v2_accepted body data st Hp Hy) as H. cbv zeta in H.
      destruct (WorkerMetricsCollection.get_best_worker _ _)
        as [[[w|] diff] cur] eqn:Hb.
      * destruct H as (Hv & _). rewrite Hv in Hr.
        destruct (worker_data st !! _) as [w_data|] eqn:Hw;
          [| discriminate].
        injection Hr as <-.
        exists data, w, diff, cur, w_data. done.
      * destruct H as (Hc & _). unfold code in Hc. rewrite Hr in Hc.
        discriminate.
    + rewrite (v2_rejected _ st _ Hp) in Hr. discriminate.
  - intros (data & w & diff & cur & w_data & Hp & Hy & Hb & Hw & ->).
    pose proof (v2_accepted body data st Hp Hy) as H. cbv zeta in H.
    rewrite Hb in H. destruct H as (Hv & _). by rewrite Hv, Hw.
Qed.

End KeyExchangeFacts.


(** ** Broker status, message after message *)

(** The callback, case by case. *)
Lemma broker_status_cases (m : MQTTMessage) (st : World) :
  handle_mqtt_message_broker_status m st
  = match split slash 2 (topic m) with
    | [_; broker; _] =>
        match int_of_bytes (payload m) with
        | Return status =>
            match broker_status st !! broker with
            | None =>
                if 1 <=? status
                then Outcome (Return tt)
                       (set_broker_status
                          (<[broker := BrokerStatus.mk true]> (broker_status st))
                          st) []
                else Outcome (Return tt) st []
            | Some bs =>
                if negb (1 <=? status) && BrokerStatus.online bs
                then Outcome (Return tt)
                       (set_broker_status
                          (<[broker := BrokerStatus.mk false]> (broker_status st))
                          st)
                       [Log Warning ("Marking broker as offline: " +:+ broker)]
                else if (1 <=? status) && negb (BrokerStatus.online bs)
                then Outcome (Return tt)
                       (set_broker_status
                          (<[broker := BrokerStatus.mk true]> (broker_status st))
                          st)
                       [Log Info ("Marking broker as online: " +:+ broker)]
                else Outcome (Return tt) st []
            end
        | Raise e => Outcome (Raise e) st []
        end
    | _ => Outcome (Raise (Exn ValueError None)) st []
    end.
Proof.
  unfold handle_mqtt_message_broker_status.
  destruct (split slash 2 (topic m)) as [|a [|broker [|c [|]]]]; exec; try done.
  destruct (int_of_bytes (payload m)) as [status|e]; exec; try done.
  rewrite Z.geb_leb, Z.ltb_antisym.
  destruct (broker_status st !! broker) as [[on]|]; exec.
  - by destruct (1 <=? status), on.
  - by destruct (1 <=? status).
Qed.

(** X9.  A broker-status message repeated right after itself changes
    nothing and logs nothing: the second run leaves the stores of the
    first, with an empty trace and the same result. *)
Theorem broker_status_idempotent (m : MQTTMessage) (st : World) :
  let o1 := handle_mqtt_message_broker_status m st in
  let o2 := handle_mqtt_message_broker_status m (world o1) in
  world o2 = world o1 ∧ trace o2 = [] ∧ value o2 = value o1.
Proof.
  cbv zeta. rewrite !broker_status_cases.
  destruct (split slash 2 (topic m)) as [|a [|broker [|c [|]]]]; try done.
  destruct (int_of_bytes (payload m)) as [status|e]; try done.
  destruct (broker_status st !! broker) as [[on]|] eqn:Hb.
  - destruct (1 <=? status), on; simpl; rewrite ?Hb, ?lookup_insert_eq;
      simpl; done.
  - destruct (1 <=? status) eqn:Hs; simpl; rewrite ?Hb, ?lookup_insert_eq;
      simpl; done.
Qed.

Lemma count_online_insert (b : gmap string BrokerStatus.t) k v :
  count_online (<[k := v]> b)
  = count_online b
    - match b !! k with
      | Some x => flag (BrokerStatus.online x)
      | None => 0
      end
    + flag (BrokerStatus.online v).
Proof.
  exact (tally_insert (λ bs, flag (BrokerStatus.online bs)) b k v).
Qed.

(** X10.  A broker-status message moves the number of online brokers by
    what it says about its broker: afterwards the count is the count
    before, minus 1 if that broker was counted, plus 1 if the payload is
    1 or more; a message that the callback cannot read leaves it. *)
Theorem count_online_step (m : MQTTMessage) (st : World) :
  count_online (broker_status (world (handle_mqtt_message_broker_status m st)))
  = count_online (broker_status st)
    + match split slash 2 (topic m), int_of_bytes (payload m) with
      | [_; broker; _], Return status =>
          flag (1 <=? status)
          - match broker_status st !! broker with
            | Some bs => flag (BrokerStatus.online bs)
            | None => 0
            end
      | _, _ => 0
      end.
Proof.
  destruct (broker_status_step m st) as (_ & _ & ->).
  destruct (split slash 2 (topic m)) as [|a [|broker [|c [|]]]]; try lia.
  destruct (int_of_bytes (payload m)) as [status|e]; try lia.
  destruct (broker_status st !! broker) as [bs|] eqn:Hb.
  - rewrite count_online_insert, Hb. cbn [BrokerStatus.online]. lia.
  - destruct (1 <=? status).
    + rewrite count_online_insert, Hb. cbn [BrokerStatus.online]. lia.
    + unfold flag. lia.
Qed.

(** ** Worker status, message after message *)

Lemma get_present c w :
  is_Some (WorkerMetricsCollection.data c !! w) →
  (WorkerMetricsCollection.get c w).2 = c.
Proof.
  intros [wm H]. unfold WorkerMetricsCollection.get. by rewrite H.
Qed.

Lemma get_data c w :
  WorkerMetricsCollection.data (WorkerMetricsCollection.get c w).2
  = match WorkerMetricsCollection.data c !! w with
    | Some _ => WorkerMetricsCollection.data c
    | None => <[w := WorkerMetrics.new]> (WorkerMetricsCollection.data c)
    end.
Proof.
  unfold WorkerMetricsCollection.get.
  by destruct (WorkerMetricsCollection.data c !! w).
Qed.

Lemma set_online_data c w :
  WorkerMetricsCollection.data (WorkerMetricsCollection.set_online c w)
  = <[w := WorkerMetrics.set_online_flag
             (default WorkerMetrics.new (WorkerMetricsCollection.data c !! w))
             true]> (WorkerMetricsCollection.data c).
Proof.
  apply map_eq. intros w'. rewrite set_online_lookup, lookup_insert.
  by case_decide.
Qed.

Lemma set_offline_data c w :
  WorkerMetricsCollection.data (WorkerMetricsCollection.set_offline c w)
  = <[w := WorkerMetrics.set_online_flag
             (default WorkerMetrics.new (WorkerMetricsCollection.data c !! w))
             false]> (WorkerMetricsCollection.data c).
Proof.
  apply map_eq. intros w'. rewrite set_offline_lookup, lookup_insert.
  by case_decide.
Qed.

Lemma set_online_get c w :
  WorkerMetricsCollection.set_online (WorkerMetricsCollection.get c w).2 w
  = WorkerMetricsCollection.set_online c w.
Proof.
  unfold WorkerMetricsCollection.set_online, WorkerMetricsCollection.get.
  destruct (WorkerMetricsCollection.data c !! w) as [wm|] eqn:Hl; simpl.
  - by rewrite Hl.
  - by rewrite lookup_insert_eq.
Qed.

Lemma set_offline_get c w :
  WorkerMetricsCollection.set_offline (WorkerMetricsCollection.get c w).2 w
  = WorkerMetricsCollection.set_offline c w.
Proof.
  unfold WorkerMetricsCollection.set_offline, WorkerMetricsCollection.get.
  destruct (WorkerMetricsCollection.data c !! w) as [wm|] eqn:Hl; simpl.
  - by rewrite Hl.
  - by rewrite lookup_insert_eq.
Qed.

(** The callback, case by case. *)
Lemma worker_status_cases (m : MQTTMessage) (st : World) :
  handle_mqtt_message_worker_status m st
  = match split slash 2 (topic m) with
    | [_; worker; _] =>
        match int_of_bytes (payload m) with
        | Return status =>
            let c := worker_metrics st in
            let was := WorkerMetricsCollection.is_online c worker in
            if 1 <=? status then
              if was then
                Outcome (Return tt)
                  (set_worker_metrics (WorkerMetricsCollection.get c worker).2 st)
                  []
              else
                Outcome (Return tt)
                  (set_worker_metrics
                     (WorkerMetricsCollection.set_online c worker) st)
                  [Log Warning ("Marking worker as online: " +:+ worker)]
            else
              if was then
                Outcome (Return tt)
                  (set_worker_metrics
                     (WorkerMetricsCollection.set_offline c worker) st)
                  [Log Warning ("Marking worker as offline: " +:+ worker)]
              else
                Outcome (Return tt)
                  (set_worker_metrics (WorkerMetricsCollection.get c worker).2 st)
                  []
        | Raise e => Outcome (Raise e) st []
        end
    | _ => Outcome (Raise (Exn ValueError None)) st []
    end.
Proof.
  unfold handle_mqtt_message_worker_status.
  destruct (split slash 2 (topic m)) as [|a [|worker [|c [|]]]]; exec; try done.
  destruct (int_of_bytes (payload m)) as [status|e]; exec; try done.
  rewrite Z.geb_leb, Z.ltb_antisym.
  destruct (1 <=? status); exec; rewrite is_online_fst_get;
    destruct (WorkerMetricsCollection.is_online (worker_metrics st) worker)
      eqn:Ho; exec; rewrite ?set_online_get, ?set_offline_get; try done.
Qed.

Lemma get_lookup_Some c w :
  is_Some (WorkerMetricsCollection.data (WorkerMetricsCollection.get c w).2 !! w).
Proof. rewrite get_snd_lookup. case_decide; [eauto | done]. Qed.

(** The metrics that a store records for a worker; none for a worker
    without record. *)
Lemma status_keeps_domain_data (m : MQTTMessage) (st : World) (w : string) :
  let c := worker_metrics st in
  let c' := worker_metrics (world (handle_mqtt_message_worker_status m st)) in
  default ∅ (WorkerMetrics.domain_data
               <$> WorkerMetricsCollection.data c' !! w)
  = default ∅ (WorkerMetrics.domain_data
                 <$> WorkerMetricsCollection.data c !! w).
Proof.
  cbv zeta. rewrite worker_status_cases.
  destruct (split slash 2 (topic m)) as [|a [|worker [|x [|]]]]; try done.
  destruct (int_of_bytes (payload m)) as [status|e]; try done.
  cbv zeta.
  destruct (1 <=? status),
    (WorkerMetricsCollection.is_online (worker_metrics st) worker);
    cbn [world worker_metrics set_worker_metrics];
    rewrite ?set_online_lookup, ?set_offline_lookup, ?get_snd_lookup;
    (case_decide as E; [subst w | done]);
    by destruct (WorkerMetricsCollection.data (worker_metrics st) !! worker).
Qed.

Lemma peers_domain_data c w d :
  peers c w d
  = default ∅ (WorkerMetrics.domain_data <$> WorkerMetricsCollection.data c !! w)
      !! d ≫= (.!! CONNECTED_PEERS_METRIC).
Proof.
  unfold peers. destruct (WorkerMetricsCollection.data c !! w); simpl;
    [done | by rewrite lookup_empty].
Qed.

(** X11.  A worker-status message repeated right after itself changes
    nothing and logs nothing. *)
Theorem worker_status_idempotent (m : MQTTMessage) (st : World) :
  let o1 := handle_mqtt_message_worker_status m st in
  let o2 := handle_mqtt_message_worker_status m (world o1) in
  world o2 = world o1 ∧ trace o2 = [] ∧ value o2 = value o1.
Proof.
  cbv zeta. rewrite !worker_status_cases.
  destruct (split slash 2 (topic m)) as [|a [|worker [|x [|]]]]; try done.
  destruct (int_of_bytes (payload m)) as [status|e]; try done.
  cbv zeta.
  destruct (1 <=? status) eqn:Hs,
    (WorkerMetricsCollection.is_online (worker_metrics st) worker) eqn:Ho;
    cbn [world worker_metrics set_worker_metrics value trace worker_data
         broker_status];
    rewrite ?is_online_get, ?is_online_set_online, ?is_online_set_offline, ?Ho;
    cbn [world worker_metrics set_worker_metrics value trace worker_data
         broker_status].
  - rewrite (get_present (WorkerMetricsCollection.get _ worker).2)
      by apply get_lookup_Some. done.
  - rewrite (get_present (WorkerMetricsCollection.set_online _ worker)).
    + done.
    + rewrite set_online_lookup. case_decide; [eauto | done].
  - rewrite (get_present (WorkerMetricsCollection.set_offline _ worker)).
    + done.
    + rewrite set_offline_lookup. case_decide; [eauto | done].
  - rewrite (get_present (WorkerMetricsCollection.get _ worker).2)
      by apply get_lookup_Some. done.
Qed.

Lemma worker_status_other_stores (m : MQTTMessage) (st : World) :
  let o := handle_mqtt_message_worker_status m st in
  worker_data (world o) = worker_data st
  ∧ broker_status (world o) = broker_status st.
Proof.
  cbv zeta. rewrite worker_status_cases.
  destruct (split slash 2 (topic m)) as [|a [|worker [|x [|]]]]; try done.
  destruct (int_of_bytes (payload m)) as [status|e]; try done.
  cbv zeta.
  by destruct (1 <=? status),
    (WorkerMetricsCollection.is_online (worker_metrics st) worker).
Qed.

(** X12.  A worker-status message never changes a recorded metric: the
    [connected_peers] of every worker and domain is what it was, and so
    are the endpoint store and the broker store. *)
Theorem worker_status_keeps_metrics (m : MQTTMessage) (st : World) (w d : string) :
  let o := handle_mqtt_message_worker_status m st in
  peers (worker_metrics (world o)) w d = peers (worker_metrics st) w d
  ∧ worker_data (world o) = worker_data st
  ∧ broker_status (world o) = broker_status st.
Proof.
  cbv zeta. split; [| apply worker_status_other_stores].
  by rewrite !peers_domain_data, status_keeps_domain_data.
Qed.

Lemma count_workers_insert c w wm :
  tally (λ x, flag (WorkerMetrics.is_online x))
    (<[w := wm]> (WorkerMetricsCollection.data c))
  = count_online_workers c
    - flag (WorkerMetricsCollection.is_online c w)
    + flag (WorkerMetrics.is_online wm).
Proof.
  rewrite tally_insert, count_online_workers_tally.
  unfold WorkerMetricsCollection.is_online.
  destruct (WorkerMetricsCollection.data c !! w); cbv beta;
    change (flag false) with 0; lia.
Qed.

(** X13.  A worker-status message moves the number of online workers,
    the figure of the status page, by what it says about its worker:
    minus 1 if the worker was online, plus 1 if the payload is 1 or
    more. *)
Theorem count_online_workers_step (m : MQTTMessage) (st : World) :
  count_online_workers
    (worker_metrics (world (handle_mqtt_message_worker_status m st)))
  = count_online_workers (worker_metrics st)
    + match split slash 2 (topic m), int_of_bytes (payload m) with
      | [_; worker; _], Return status =>
          flag (1 <=? status)
          - flag (WorkerMetricsCollection.is_online (worker_metrics st) worker)
      | _, _ => 0
      end.
Proof.
  rewrite worker_status_cases.
  destruct (split slash 2 (topic m)) as [|a [|worker [|x [|]]]];
    try (simpl; lia).
  destruct (int_of_bytes (payload m)) as [status|e]; try (simpl; lia).
  cbv zeta. set (c := worker_metrics st).
  assert (Hget : count_online_workers (WorkerMetricsCollection.get c worker).2
                 = count_online_workers c).
  { rewrite !count_online_workers_tally, get_data.
    destruct (WorkerMetricsCollection.data c !! worker) eqn:Hl; [done |].
    rewrite tally_insert, Hl. unfold flag. simpl. lia. }
  destruct (1 <=? status),
    (WorkerMetricsCollection.is_online c worker) eqn:Ho;
    cbn [world worker_metrics set_worker_metrics].
  - rewrite Hget. unfold flag. lia.
  - rewrite (count_online_workers_tally (WorkerMetricsCollection.set_online _ _)),
      set_online_data, count_workers_insert, Ho. unfold flag. simpl. lia.
  - rewrite (count_online_workers_tally (WorkerMetricsCollection.set_offline _ _)),
      set_offline_data, count_workers_insert, Ho. unfold flag. simpl. lia.
  - rewrite Hget. unfold flag. lia.
Qed.

(** ** Metrics messages *)

Lemma update_lookup c w d metric v w' :
  WorkerMetricsCollection.data (WorkerMetricsCollection.update c w d metric v)
    !! w'
  = if decide (w = w')
    then Some (WorkerMetrics.set_metric
                 (default WorkerMetrics.new (WorkerMetricsCollection.data c !! w))
                 d metric v)
    else WorkerMetricsCollection.data c !! w'.
Proof.
  unfold WorkerMetricsCollection.update.
  pose proof (get_fst c w) as H1. pose proof (get_snd_lookup c w w') as H2.
  destruct (WorkerMetricsCollection.get c w) as [wm c']. simpl in *.
  rewrite lookup_insert. case_decide; [by rewrite H1 | by rewrite H2].
Qed.

Lemma is_online_update c w d metric v w' :
  WorkerMetricsCollection.is_online
    (WorkerMetricsCollection.update c w d metric v) w'
  = WorkerMetricsCollection.is_online c w'.
Proof.
  unfold WorkerMetricsCollection.is_online. rewrite update_lookup.
  case_decide as E; [subst w' | done].
  by destruct (WorkerMetricsCollection.data c !! w).
Qed.

Section Ingress.

Variable is_valid_domain : string -> bool.
Variable loads : string -> result json.
Variable repr : json -> string.
Variable int_of_str : string -> result Z.
Variables HOSTNAME MQTT_BROKER_URL MQTT_BROKER_PORT : string.

Local Abbreviation on_metrics :=
  (handle_mqtt_message_metrics is_valid_domain).
Local Abbreviation on_data :=
  (handle_mqtt_message_data is_valid_domain loads repr int_of_str).

(** The callback, case by case. *)
Lemma metrics_cases (m : MQTTMessage) (st : World) :
  on_metrics m st
  = match decode (payload m) with
    | Raise e => Outcome (Raise e) st []
    | Return text =>
        let received :=
          Log Debug ("MQTT message received on " +:+ topic m +:+ ": "
                     +:+ text) in
        match split slash 3 (topic m) with
        | [_; domain; worker; metric] =>
            if negb (is_valid_domain domain) then
              Outcome (Return tt) st
                [received;
                 Log Error ("Domain " +:+ domain
                            +:+ " not in configured domains")]
            else if String.eqb worker "" || String.eqb metric "" then
              Outcome (Return tt) st
                [received;
                 Log Error
                   "Ignored MQTT message with empty worker or metrics label"]
            else
              match int_of_bytes (payload m) with
              | Return data =>
                  Outcome (Return tt)
                    (set_worker_metrics
                       (WorkerMetricsCollection.update (worker_metrics st)
                          worker domain metric data) st)
                    [received;
                     Log Info ("Update worker metrics: " +:+ metric +:+ " on "
                               +:+ worker +:+ "/" +:+ domain +:+ " = "
                               +:+ pretty data)]
              | Raise e => Outcome (Raise e) st [received]
              end
        | _ => Outcome (Raise (Exn ValueError None)) st [received]
        end
    end.
Proof.
  unfold handle_mqtt_message_metrics.
  destruct (decode (payload m)) as [text|e]; exec; [| done].
  destruct (split slash 3 (topic m)) as [|a [|d [|w [|metric [|]]]]]; exec;
    try done.
  destruct (is_valid_domain d); exec; [| done].
  destruct (String.eqb w "" || String.eqb metric ""); exec; [done |].
  destruct (int_of_bytes (payload m)); exec; done.
Qed.

(** X14.  Messages for an unconfigured domain are dropped with an
    error in the log and no change of the stores: a metrics message
    after its debug line, a data message before its payload is even
    parsed. *)
Theorem unconfigured_domain_dropped
    (m m' : MQTTMessage) (a d w metric a' w' x text : string) (st : World) :
  is_valid_domain d = false →
  split slash 3 (topic m) = [a; d; w; metric] →
  decode (payload m) = Return text →
  split slash 3 (topic m') = [a'; w'; d; x] →
  on_metrics m st
  = Outcome (Return tt) st
      [Log Debug ("MQTT message received on " +:+ topic m +:+ ": " +:+ text);
       Log Error ("Domain " +:+ d +:+ " not in configured domains")]
  ∧ on_data m' st
    = Outcome (Return tt) st
        [Log Error ("Domain " +:+ d +:+ " not in configured domains.")].
Proof.
  intros Hd Hs Ht Hs'. split.
  - rewrite metrics_cases, Ht, Hs. cbv zeta. by rewrite Hd.
  - unfold handle_mqtt_message_data. rewrite Hs', Hd. by exec.
Qed.

(** X15.  A metrics message for a configured domain, with non-empty
    worker and metric names and an integer payload, records that
    integer under worker, domain and metric, replacing what was there;
    it changes no online flag, no other worker and no other store. *)
Theorem metrics_recorded
    (m : MQTTMessage) (a d w metric text : string) (v : Z) (st : World) :
  split slash 3 (topic m) = [a; d; w; metric] →
  is_valid_domain d = true →
  w ≠ "" → metric ≠ "" →
  decode (payload m) = Return text →
  int_of_bytes (payload m) = Return v →
  let o := on_metrics m st in
  let c' := worker_metrics (world o) in
  value o = Return tt
  ∧ (∃ wm, WorkerMetricsCollection.data c' !! w = Some wm
           ∧ WorkerMetrics.get_domain_metrics wm d !! metric = Some v)
  ∧ (∀ w', WorkerMetricsCollection.is_online c' w'
           = WorkerMetricsCollection.is_online (worker_metrics st) w')
  ∧ (∀ w', w' ≠ w →
           WorkerMetricsCollection.data c' !! w'
           = WorkerMetricsCollection.data (worker_metrics st) !! w')
  ∧ worker_data (world o) = worker_data st
  ∧ broker_status (world o) = broker_status st.
Proof.
  intros Hs Hd Hw Hm Ht Hv. cbv zeta.
  rewrite metrics_cases, Ht, Hs. cbv zeta. rewrite Hd, Hv.
  apply String.eqb_neq in Hw, Hm. rewrite Hw, Hm.
  cbn [negb orb value world worker_metrics set_worker_metrics worker_data
       broker_status].
  split; [done |]. split; [| split; [| split; [| done]]].
  - eexists. split; [rewrite update_lookup; by case_decide |].
    unfold WorkerMetrics.get_domain_metrics at 1. simpl.
    rewrite lookup_insert_eq. simpl. apply lookup_insert_eq.
  - intros w'. apply is_online_update.
  - intros w' Hne. rewrite update_lookup. by case_decide.
Qed.

(** A property of the stores that an update for a configured domain
    keeps is kept by the metrics callback. *)
Lemma metrics_keeps (P : World → Prop) (m : MQTTMessage) (st : World) :
  (∀ w d metric v,
     is_valid_domain d = true →
     P (set_worker_metrics
          (WorkerMetricsCollection.update (worker_metrics st) w d metric v)
          st)) →
  P st → P (world (on_metrics m st)).
Proof.
  intros Hu HP. rewrite metrics_cases.
  destruct (decode (payload m)) as [text|e]; [| exact HP]. cbv zeta.
  destruct (split slash 3 (topic m)) as [|a [|d [|w [|metric [|]]]]];
    try exact HP.
  destruct (is_valid_domain d) eqn:Hd; [| exact HP]. simpl.
  destruct (String.eqb w "" || String.eqb metric ""); [exact HP |].
  destruct (int_of_bytes (payload m)) as [v|e]; [| exact HP].
  by apply Hu.
Qed.

(** X16.  A metrics message changes the stores only in that case: for
    an unconfigured domain, an empty worker or metric name, a payload
    that is not an integer or not UTF-8, or a topic of fewer than four
    levels, the stores are left as they were. *)
Theorem metrics_applied_only_if (m : MQTTMessage) (st : World) :
  let o := on_metrics m st in
  world o = st
  ∨ ∃ a d w metric v,
      split slash 3 (topic m) = [a; d; w; metric]
      ∧ is_valid_domain d = true
      ∧ w ≠ "" ∧ metric ≠ ""
      ∧ int_of_bytes (payload m) = Return v
      ∧ world o
        = set_worker_metrics
            (WorkerMetricsCollection.update (worker_metrics st) w d metric v)
            st.
Proof.
  cbv zeta. rewrite metrics_cases.
  destruct (decode (payload m)) as [text|e]; [| by left]. cbv zeta.
  destruct (split slash 3 (topic m)) as [|a [|d [|w [|metric [|]]]]];
    try by left.
  destruct (is_valid_domain d) eqn:Hd; [| by left]. simpl.
  destruct (String.eqb_spec w ""); [by left |].
  destruct (String.eqb_spec metric ""); [by left |]. simpl.
  destruct (int_of_bytes (payload m)) as [v|e]; [| by left].
  right. by exists a, d, w, metric, v.
Qed.


(** *** What every execution keeps *)

Local Abbreviation route :=
  (on_message is_valid_domain loads repr int_of_str).
Local Abbreviation step_on :=
  (step is_valid_domain loads repr int_of_str
     HOSTNAME MQTT_BROKER_URL MQTT_BROKER_PORT).
Local Abbreviation runs :=
  (run_inputs is_valid_domain loads repr int_of_str
     HOSTNAME MQTT_BROKER_URL MQTT_BROKER_PORT).

Lemma call_all_keeps (P : World → Prop) cbs (m : MQTTMessage) :
  (∀ cb, cb ∈ cbs → ∀ st, P st → P (world (cb.2 m st))) →
  ∀ st, P st → P (world (call_all cbs m st)).
Proof.
  induction cbs as [|[f cb] cbs IH]; intros Hall st HP; [exact HP |].
  simpl. unfold bind.
  pose proof (Hall (f, cb) ltac:(left) st HP) as H1. simpl in H1.
  destruct (cb m st) as [[[]|e] w1 t1]; simpl in *; [| exact H1].
  assert (H2 : P (world (call_all cbs m w1))).
  { apply IH; [| exact H1]. intros cb' Hin. apply Hall. by right. }
  by destruct (call_all cbs m w1).
Qed.

(** A property of the stores that the four callbacks keep is kept by
    the router. *)
Lemma on_message_keeps (P : World → Prop) (m : MQTTMessage) :
  (∀ st, P st → P (world (on_metrics m st))) →
  (∀ st, P st → P (world (handle_mqtt_message_worker_status m st))) →
  (∀ st, P st → P (world (on_data m st))) →
  (∀ st, P st → P (world (handle_mqtt_message_broker_status m st))) →
  ∀ st, P st → P (world (route m st)).
Proof.
  intros H1 H2 H3 H4 st HP. unfold on_message.
  assert (Hcb : ∀ cb,
            cb ∈ filter (λ cb, matches cb.1 (topic m) = true)
                   (callbacks is_valid_domain loads repr int_of_str) →
            ∀ st, P st → P (world (cb.2 m st))).
  { intros cb Hin%list_elem_of_filter. destruct Hin as [_ Hin].
    unfold callbacks in Hin.
    repeat (apply elem_of_cons in Hin as [-> | Hin]; [assumption |]).
    by apply elem_of_nil in Hin. }
  destruct (filter _ _) as [|cb cbs] eqn:Hf.
  - unfold handle_mqtt_message.
    destruct (decode (payload m)); exec; exact HP.
  - by apply call_all_keeps.
Qed.

Lemma v2_world body st :
  let o := wg_api_v2_key_exchange is_valid_domain loads repr body st in
  world o = st
  ∨ ∃ data w v,
      parse_request is_valid_domain loads repr body = Return data
      ∧ world o
        = set_worker_metrics
            (WorkerMetricsCollection.update (worker_metrics st) w
               (KeyExchange.domain data) CONNECTED_PEERS_METRIC v)
            st.
Proof.
  cbv zeta.
  destruct (parse_request is_valid_domain loads repr body) as [data|ex] eqn:Hp.
  - destruct (publishable
                ("wireguard/" +:+ KeyExchange.domain data +:+ "/all")
                (KeyExchange.public_key data) 0) eqn:Hy;
      [| left; by rewrite (v2_refused _ _ _ body data st Hp Hy)].
    pose proof (v2_accepted _ _ _ body data st Hp Hy) as H. cbv zeta in H.
    destruct (WorkerMetricsCollection.get_best_worker _ _) as [[[w|] ?] ?].
    + right. destruct H as (_ & Hw & _). eauto.
    + left. by destruct H as (_ & Hw & _).
  - left. by rewrite (v2_rejected _ _ _ _ st _ Hp).
Qed.

(** A property of the stores that every handler keeps holds throughout
    every execution. *)
Lemma run_keeps (P : World → Prop) :
  (∀ m st, P st → P (world (on_metrics m st))) →
  (∀ m st, P st → P (world (handle_mqtt_message_worker_status m st))) →
  (∀ body st, P st →
     P (world (wg_api_v2_key_exchange is_valid_domain loads repr body st))) →
  (∀ st b, P st → P (set_broker_status b st)) →
  ∀ inputs st, P st → P (runs st inputs).
Proof.
  intros H1 H2 H3 H4 inputs. induction inputs as [|i inputs IH]; intros st HP;
    [exact HP |].
  change (P (runs (step_on st i) inputs)). apply IH.
  destruct i as [|m|body|body]; cbn [step].
  - by rewrite (proj1 (connect_leaves_stores _ _ _ _)).
  - apply on_message_keeps; auto.
    + intros st' HP'. by rewrite (proj1 (on_data_outcome _ _ _ _ _ _)).
    + intros st' HP'.
      destruct (broker_status_step m st') as (Hm & Hd & Hb).
      destruct (world (handle_mqtt_message_broker_status m st'))
        as [c' d' b'] eqn:E. simpl in *. subst c' d'.
      destruct st' as [c d b]. exact (H4 _ b' HP').
  - by rewrite v1_world.
  - by apply H3.
Qed.

Lemma update_configured c w d metric v :
  domains_configured is_valid_domain c →
  is_valid_domain d = true →
  domains_configured is_valid_domain
    (WorkerMetricsCollection.update c w d metric v).
Proof.
  intros Hc Hd w' wm' d' Hl Hs. rewrite update_lookup in Hl.
  case_decide as E; [subst w' | by eapply Hc].
  injection Hl as <-. simpl in Hs.
  destruct (decide (d = d')) as [<- | Hne]; [exact Hd |].
  rewrite lookup_insert_ne in Hs by done.
  destruct (WorkerMetricsCollection.data c !! w) as [wm|] eqn:Hw; simpl in Hs.
  - by eapply Hc.
  - rewrite lookup_empty in Hs. by destruct Hs.
Qed.

(** X17.  In every execution from the initial state, every domain
    under which some worker has metrics is a configured domain. *)
Theorem recorded_domains_configured (inputs : list input) :
  domains_configured is_valid_domain (worker_metrics (runs initial inputs)).
Proof.
  apply (run_keeps
           (λ st, domains_configured is_valid_domain (worker_metrics st))).
  - intros m st HP. apply metrics_keeps; [| exact HP].
    intros w d metric v Hd. by apply update_configured.
  - intros m st HP w wm' d Hl Hs.
    pose proof (status_keeps_domain_data m st w) as H. cbv zeta in H.
    rewrite Hl in H. simpl in H.
    destruct (WorkerMetricsCollection.data (worker_metrics st) !! w)
      as [wm|] eqn:Hw; simpl in H.
    + apply (HP w wm d Hw). by rewrite <- H.
    + rewrite H, lookup_empty in Hs. by destruct Hs.
  - intros body st HP.
    destruct (v2_world body st) as [-> | (data & w & v & Hp & ->)]; [done |].
    apply update_configured; [done |].
    apply parse_request_inv in Hp as (msg & _ & Hd).
    by apply KeyExchange_from_dict_valid in Hd as (f & _ & _ & _ & _ & ?).
  - done.
  - intros w wm d Hl.
    change ((∅ : gmap string WorkerMetrics.t) !! w = Some wm) in Hl.
    by rewrite lookup_empty in Hl.
Qed.

(** X18.  In every execution from the initial state the endpoint
    store stays empty, since the data callback never stores, and so
    version 2 never answers 200: it is left by the client's
    [ValueError] when the publication is refused, and answers 400 or
    500 otherwise. *)
Theorem no_endpoint_ever (inputs : list input) (body : string) :
  let st := runs initial inputs in
  let o := wg_api_v2_key_exchange is_valid_domain loads repr body st in
  worker_data st = ∅
  ∧ code o ≠ Some 200
  ∧ if refused is_valid_domain loads repr body then
      value o = Raise (Exn ValueError None)
    else code o = Some 400 ∨ code o = Some 500.
Proof.
  cbv zeta.
  assert (He : worker_data (runs initial inputs) = ∅).
  { apply (run_keeps (λ st, worker_data st = ∅)); try done.
    - intros m st HP.
      by apply (metrics_keeps (λ st', worker_data st' = ∅)).
    - intros m st HP. by rewrite (proj1 (worker_status_other_stores m st)).
    - intros b st HP.
      by destruct (v2_world b st) as [-> | (data & w & v & _ & ->)]. }
  split; [exact He |]. set (st := runs initial inputs) in *.
  assert (H : if refused is_valid_domain loads repr body then
                value (wg_api_v2_key_exchange is_valid_domain loads repr
                         body st) = Raise (Exn ValueError None)
              else code (wg_api_v2_key_exchange is_valid_domain loads repr
                           body st) = Some 400
                   ∨ code (wg_api_v2_key_exchange is_valid_domain loads repr
                             body st) = Some 500).
  { unfold refused.
    destruct (parse_request is_valid_domain loads repr body)
      as [data|ex] eqn:Hp.
    - destruct (publishable _ _ _) eqn:Hy; cbn [negb].
      + pose proof (v2_accepted _ _ _ body data st Hp Hy) as H.
        cbv zeta in H.
        destruct (WorkerMetricsCollection.get_best_worker _ _)
          as [[[w|] ?] ?].
        * destruct H as (Hv & _). right. unfold code.
          by rewrite Hv, He, lookup_empty.
        * left. by destruct H as (Hc & _).
      + by rewrite (v2_refused _ _ _ body data st Hp Hy).
    - left. by rewrite (v2_rejected _ _ _ _ st _ Hp). }
  split; [| exact H].
  destruct (refused is_valid_domain loads repr body).
  - unfold code. by rewrite H.
  - destruct H as [-> | ->]; discriminate.
Qed.

(** *** The status page *)

Lemma no_worker_online c :
  count_online_workers c = 0 →
  ∀ w wm, WorkerMetricsCollection.data c !! w = Some wm →
          WorkerMetrics.is_online wm = false.
Proof.
  rewrite count_online_workers_tally.
  intros H. by apply (tally_flag WorkerMetrics.is_online).
Qed.

Lemma no_worker_no_candidate c d :
  count_online_workers c = 0 →
  WorkerMetricsCollection.get_best_worker c d = (None, 0, 0).
Proof.
  intros H. unfold WorkerMetricsCollection.get_best_worker.
  assert (Hc : WorkerMetricsCollection.candidates c d = []).
  { destruct (WorkerMetricsCollection.candidates c d) as [|[p w] l] eqn:E;
      [done |].
    assert (Hin : (p, w) ∈ WorkerMetricsCollection.candidates c d)
      by (rewrite E; left).
    apply elem_of_candidates in Hin as (wm & Hw & Ho & _).
    pose proof (no_worker_online c H w wm Hw) as Hoff.
    unfold WorkerMetrics.is_online in Hoff. congruence. }
  by rewrite Hc.
Qed.

Lemma no_worker_no_peers c :
  count_online_workers c = 0 → get_total_peer_count c = 0.
Proof.
  intros H. pose proof (no_worker_online c H) as Hoff.
  unfold get_total_peer_count.
  assert (Hl : ∀ l : list (string * WorkerMetrics.t),
            (∀ kv, kv ∈ l → WorkerMetrics.is_online kv.2 = false) →
            foldr Z.add 0
              ((λ kv,
                  if WorkerMetrics.is_online kv.2 then
                    foldr Z.add 0
                      ((λ dm, default 0 (dm.2 !! CONNECTED_PEERS_METRIC))
                         <$> map_to_list (WorkerMetrics.domain_data kv.2))
                  else 0) <$> l) = 0).
  { induction l as [|kv l IH]; intros Hall; [done |].
    rewrite fmap_cons. cbn [foldr]. rewrite (Hall kv) by left.
    rewrite IH; [done |]. intros kv' Hin. apply Hall. by right. }
  apply Hl. intros [w wm] Hin%elem_of_map_to_list. by eapply Hoff.
Qed.

(** X19.  When no worker is online, the status page reports the
    number of online brokers, 0 online workers and 0 peers, changing
    nothing, and version 2 has no worker for any accepted request: when
    the client takes the publication it publishes the key and answers
    400, and when the client refuses it is left by the [ValueError];
    no store changes either way. *)
Theorem status_without_workers body data st :
  parse_request is_valid_domain loads repr body = Return data →
  count_online_workers (worker_metrics st) = 0 →
  let d := KeyExchange.domain data in
  let key := KeyExchange.public_key data in
  let log :=
    Log Info ("wg_api_v2_key_exchange: Domain: " +:+ d +:+ ", Key:"
              +:+ key) in
  status st
  = Outcome
      (Return ("online-brokers: " +:+ pretty (count_online (broker_status st))
               +:+ String newline ""
               +:+ "online-workers: 0" +:+ String newline ""
               +:+ "total-peers: 0" +:+ String newline "",
               200))
      st []
  ∧ wg_api_v2_key_exchange is_valid_domain loads repr body st
    = if publishable ("wireguard/" +:+ d +:+ "/all") key 0 then
        Outcome
          (Return (ErrorMessage
                     "no gateway online for this domain, please check the domain value and try again later",
                   400))
          st
          [log;
           Publish ("wireguard/" +:+ d +:+ "/all") key 0 false;
           Select d None;
           Log Warning ("No worker online for domain " +:+ d)]
      else Outcome (Raise (Exn ValueError None)) st [log].
Proof.
  intros Hp H0 d key log. split.
  - unfold status. exec. rewrite H0, (no_worker_no_peers _ H0).
    rewrite !append_assoc. reflexivity.
  - destruct (publishable _ _ _) eqn:Hy.
    + apply parse_request_inv in Hp as (msg & Hl & Hd).
      unfold wg_api_v2_key_exchange, get_json. rewrite Hl, Hd. exec.
      unfold publish. change ("/" +:+ "all") with "/all".
      fold d key. rewrite Hy. exec.
      rewrite (no_worker_no_candidate _ _ H0). by exec.
    + exact (v2_refused _ _ _ body data st Hp Hy).
Qed.

End Ingress.


(** ** The further theorems at concrete inputs *)

Lemma join_host_port_inj_witness :
  no_colon "51820" = true
  ∧ join_host_port "2001:db8::1" "51820" = "[2001:db8::1]:51820"
  ∧ ("2001:db8::1" = "2001:db8::1" ∧ "51820" = "51820").
Proof.
  refine (conj eq_refl (conj eq_refl _)).
  exact (join_host_port_inj "2001:db8::1" "51820" "2001:db8::1" "51820"
           eq_refl eq_refl eq_refl).
Defined.

(** Without the condition on the ports the host and the port cannot be
    told apart. *)
Example join_host_port_collision :
  join_host_port "[a" "b]:c" = join_host_port "a:b" "c".
Proof. reflexivity. Qed.

Lemma invalid_key_first_witness :
  loads_more bad_key_text = Return (JDict bad_key_fields)
  ∧ dict_get bad_key_fields "public_key" = JStr "short"
  ∧ re_match WG_PUBKEY_PATTERN "short" = false
  ∧ wg_api_v2_key_exchange ffda loads_more repr_plain bad_key_text
      example_state
    = Outcome
        (Return (ErrorOf (Exn ValueError
                            (Some "Not a valid Wireguard public key: short.")),
                 400))
        example_state [].
Proof.
  assert (H1 : loads_more bad_key_text = Return (JDict bad_key_fields))
    by (vm_compute; reflexivity).
  assert (H2 : dict_get bad_key_fields "public_key" = JStr "short")
    by reflexivity.
  assert (H3 : re_match WG_PUBKEY_PATTERN "short" = false) by reflexivity.
  exact (conj H1 (conj H2 (conj H3
           (proj2 (invalid_key_first ffda loads_more repr_plain bad_key_text
                     bad_key_fields "short" example_state H1 H2 H3))))).
Defined.

Lemma missing_domain_is_None_witness :
  loads_more no_domain_text = Return (JDict no_domain_fields)
  ∧ dict_get no_domain_fields "public_key" = JStr key44
  ∧ re_match WG_PUBKEY_PATTERN key44 = true
  ∧ dict_get no_domain_fields "domain" = JNull
  ∧ parse_request ffda loads_more repr_plain no_domain_text
    = (if ffda "None" then Return (KeyExchange.mk key44 "None")
       else Raise (Exn ValueError
                     (Some "Domain None not in configured domains."))).
Proof.
  assert (H1 : loads_more no_domain_text = Return (JDict no_domain_fields))
    by (vm_compute; reflexivity).
  assert (H2 : dict_get no_domain_fields "public_key" = JStr key44)
    by reflexivity.
  assert (H3 : re_match WG_PUBKEY_PATTERN key44 = true)
    by (vm_compute; reflexivity).
  assert (H4 : dict_get no_domain_fields "domain" = JNull) by reflexivity.
  exact (conj H1 (conj H2 (conj H3 (conj H4
           (missing_domain_is_None ffda loads_more repr_plain no_domain_text
              no_domain_fields key44 H1 H2 H3 H4))))).
Defined.

Lemma rejected_request_no_effect_witness :
  parse_request ffda loads_more repr_plain "abc"
  = Raise (Exn BadRequest None)
  ∧ wg_api_v1_key_exchange ffda loads_more repr_plain "abc" example_state
    = Outcome (Return (ErrorOf (Exn BadRequest None), 400)) example_state [].
Proof.
  assert (H : parse_request ffda loads_more repr_plain "abc"
              = Raise (Exn BadRequest None)) by (vm_compute; reflexivity).
  exact (conj H
           (proj1 (rejected_request_no_effect ffda loads_more repr_plain
                     "abc" (Exn BadRequest None) example_state H))).
Defined.

Lemma unconfigured_domain_dropped_witness :
  ffda "nope" = false
  ∧ split slash 3 "wireguard-metrics/nope/gw1/connected_peers"
    = ["wireguard-metrics"; "nope"; "gw1"; "connected_peers"]
  ∧ decode "5" = Return "5"
  ∧ split slash 3 "wireguard-worker/gw1/nope/data"
    = ["wireguard-worker"; "gw1"; "nope"; "data"]
  ∧ handle_mqtt_message_data ffda loads_more repr_plain int_of_bytes
      (mkMessage "wireguard-worker/gw1/nope/data" "abc") example_state
    = Outcome (Return tt) example_state
        [Log Error "Domain nope not in configured domains."].
Proof.
  assert (H1 : ffda "nope" = false) by (vm_compute; reflexivity).
  refine (conj H1 (conj eq_refl (conj eq_refl (conj eq_refl _)))).
  exact (proj2 (unconfigured_domain_dropped ffda loads_more repr_plain
                  int_of_bytes
                  (mkMessage "wireguard-metrics/nope/gw1/connected_peers" "5")
                  (mkMessage "wireguard-worker/gw1/nope/data" "abc")
                  "wireguard-metrics" "nope" "gw1" "connected_peers"
                  "wireguard-worker" "gw1" "data" "5" example_state
                  H1 eq_refl eq_refl eq_refl)).
Defined.

Lemma metrics_recorded_witness :
  split slash 3 "wireguard-metrics/ffda/gw1/connected_peers"
  = ["wireguard-metrics"; "ffda"; "gw1"; "connected_peers"]
  ∧ ffda "ffda" = true
  ∧ decode "10" = Return "10"
  ∧ int_of_bytes "10" = Return 10
  ∧ value (handle_mqtt_message_metrics ffda
             (mkMessage "wireguard-metrics/ffda/gw1/connected_peers" "10")
             initial)
    = Return tt.
Proof.
  assert (H2 : ffda "ffda" = true) by (vm_compute; reflexivity).
  refine (conj eq_refl (conj H2 (conj eq_refl (conj eq_refl _)))).
  refine (proj1 (metrics_recorded ffda
                   (mkMessage "wireguard-metrics/ffda/gw1/connected_peers" "10")
                   "wireguard-metrics" "ffda" "gw1" "connected_peers" "10" 10
                   initial eq_refl H2 _ _ eq_refl eq_refl));
    discriminate.
Defined.

Lemma status_without_workers_witness :
  parse_request ffda loads_documents repr_plain request_text
  = Return example_exchange
  ∧ count_online_workers (worker_metrics initial) = 0
  ∧ value (wg_api_v2_key_exchange ffda loads_documents repr_plain
             request_text initial)
    = Return (ErrorMessage
                "no gateway online for this domain, please check the domain value and try again later",
              400).
Proof.
  assert (H1 : parse_request ffda loads_documents repr_plain request_text
               = Return example_exchange) by (vm_compute; reflexivity).
  assert (H2 : count_online_workers (worker_metrics initial) = 0)
    by reflexivity.
  exact (conj H1 (conj H2
           (f_equal value
              (proj2 (status_without_workers ffda loads_documents repr_plain
                        request_text example_exchange initial H1 H2))))).
Defined.

(** The answer of version 2 when the endpoint store has the record. *)
Example v2_answers_endpoint_example :
  value (wg_api_v2_key_exchange ffda loads_documents repr_plain request_text
           endpoint_state)
  = Return (Endpoint "gw1.example" "51820" ["fe80::1/64"] key44, 200).
Proof. vm_compute. reflexivity. Qed.

(** The status page of the state with one worker and one broker. *)
Example status_example :
  value (status example_state)
  = Return ("online-brokers: 1" +:+ String newline ""
            +:+ "online-workers: 1" +:+ String newline ""
            +:+ "total-peers: 10" +:+ String newline "", 200).
Proof. vm_compute. reflexivity. Qed.

